(** * The template store of [api-server/app.py]

    A shallow embedding of the FastAPI service in [api-server/app.py]: the
    JSON-file template store ([load_store], [save_store], the five
    [/templates] handlers), the seed catalogue [MOCK_TEMPLATES] and the
    dropdown search over [MOCK_DATA].

    Conventions of the embedding.
    - A Python [str] is a [string]; [==] is [String.eqb] and [<] on [str] is
      the lexicographic order [String.leb] (code-point order, which UTF-8
      preserves).  [str.lower] is a parameter [lower] of the definitions
      that call it.
    - A template is a record with the six keys every stored dictionary has;
      [content] is an opaque JSON tree.
    - A file is represented by what [json.load] makes of its text (see
      [file_data]); the disk holds the store file and its [".tmp"] sibling.
      [load_store] and the handlers are first given on disks whose store
      file is text; [load_store_bytes] and the handlers [..._bytes] add the
      store file that is not UTF-8, which [open(..., encoding="utf-8")]
      cannot read.
    - [uuid4()] and [now_iso()] read the environment: the handlers take the
      values drawn ([tid], [ts]) as arguments.  What the operating system may
      refuse during [save_store] is the argument [flt].
    - A handler returns an [outcome]: a value, an [HTTPException] or an
      [OSError] that escaped. *)

From Stdlib Require Import String Ascii List ZArith Bool Arith Lia.
From Stdlib Require Import Permutation Sorted DecimalString.
Import ListNotations.
Local Open Scope string_scope.
Set Warnings "-register-all".

(** ** Python values *)

(** JSON trees: the payload of [content] and the values of [MOCK_DATA]. *)
Inductive json : Type :=
| JNull
| JBool (b : bool)
| JInt (z : Z)
| JStr (s : string)
| JList (l : list json)
| JDict (d : list (string * json)).

(** [if x:] on an [Optional[str]]: [None] and [""] are both falsy. *)
Definition truthy (x : option string) : bool :=
  match x with
  | None => false
  | Some s => negb (s =? "")
  end.

(** The string of a truthy [Optional[str]]. *)
Definition text (x : option string) : string :=
  match x with
  | None => ""
  | Some s => s
  end.

(** [needle in hay] on two [str]: [needle] occurs as a contiguous run. *)
Fixpoint str_in (needle hay : string) : bool :=
  prefix needle hay ||
  match hay with
  | EmptyString => false
  | String _ hay' => str_in needle hay'
  end.

(** [str(v)] on the values that occur in [MOCK_DATA] (strings and ints). *)
Definition str (v : json) : string :=
  match v with
  | JStr s => s
  | JInt z => NilZero.string_of_int (Z.to_int z)
  | JBool true => "True"
  | JBool false => "False"
  | JNull => "None"
  | _ => ""
  end.

(** [d.get(key)] on a dictionary kept in insertion order. *)
Fixpoint dict_get {V : Type} (d : list (string * V)) (key : string) : option V :=
  match d with
  | [] => None
  | (k, v) :: d' => if k =? key then Some v else dict_get d' key
  end.

(** [d.get(key, default)]. *)
Definition dict_get_default {V : Type} (d : list (string * V)) (key : string)
    (default : V) : V :=
  match dict_get d key with
  | Some v => v
  | None => default
  end.

(** ** Models *)

Module TemplateCreate.
Record t : Type := Build
  { name : string;
    category : string;
    content : json }.
End TemplateCreate.

Module Template.
Record t : Type := Build
  { id : string;
    name : string;
    category : string;
    content : json;
    created_at : string;
    updated_at : string }.
End Template.

Abbreviation Template := Template.t.
Abbreviation TemplateCreate := TemplateCreate.t.

(** What a handler does: return, raise [HTTPException(status_code, detail)],
    or let an [OSError] of [save_store] escape. *)
Inductive outcome (A : Type) : Type :=
| Return (a : A)
| HTTPException (status_code : Z) (detail : string)
| OSError.

Arguments Return {A} a.
Arguments HTTPException {A} status_code detail.
Arguments OSError {A}.

Definition NotFound {A : Type} : outcome A := HTTPException 404 "Template not found".
Definition Conflict {A : Type} : outcome A := HTTPException 409 "Template already exists".

(** ** Mock data *)

Definition cell_v (s : string) : json := JDict [("v", JStr s)].
Definition cell_n (z : Z) : json := JDict [("v", JInt z)].
Definition cell_f (s : string) : json := JDict [("f", JStr s)].

Definition row (cells : list json) : json :=
  JDict (combine ["0"; "1"; "2"; "3"; "4"; "5"] cells).

Definition workbook (sheet_name : string) (rows : list json)
    (rowCount columnCount : Z) : json :=
  JDict
    [("sheetOrder", JList [JStr "sheet1"]);
     ("sheets",
      JDict
        [("sheet1",
          JDict
            [("id", JStr "sheet1");
             ("name", JStr sheet_name);
             ("cellData", JDict (combine ["0"; "1"; "2"] rows));
             ("rowCount", JInt rowCount);
             ("columnCount", JInt columnCount)])])].

Definition MOCK_TEMPLATES : list Template :=
  [ Template.Build "tpl-001" "Sales Report Template" "Sales"
      (workbook "Sales Report"
         [ row [cell_v "Product ID"; cell_v "Product Name"; cell_v "Quantity";
                cell_v "Unit Price"; cell_v "Total"];
           row [cell_v "P001"; cell_v "Laptop"; cell_n 10; cell_n 1200;
                cell_f "=C2*D2"];
           row [cell_v "P002"; cell_v "Smartphone"; cell_n 25; cell_n 800;
                cell_f "=C3*D3"] ]
         100 20)
      "2025-12-01T10:00:00Z" "2025-12-15T14:30:00Z";
    Template.Build "tpl-002" "Employee Tracking" "HR"
      (workbook "Employees"
         [ row [cell_v "ID"; cell_v "Name"; cell_v "Department";
                cell_v "Salary"; cell_v "Start Date"] ]
         100 10)
      "2025-11-20T09:00:00Z" "2025-12-10T11:00:00Z";
    Template.Build "tpl-003" "Budget Planning" "Finance"
      (workbook "Budget"
         [ row [cell_v "Category"; cell_v "Q1"; cell_v "Q2"; cell_v "Q3";
                cell_v "Q4"; cell_v "Total"];
           row [cell_v "Marketing"; cell_n 10000; cell_n 12000; cell_n 15000;
                cell_n 18000; cell_f "=SUM(B2:E2)"];
           row [cell_v "R&D"; cell_n 20000; cell_n 22000; cell_n 25000;
                cell_n 28000; cell_f "=SUM(B3:E3)"] ]
         50 15)
      "2025-10-15T08:00:00Z" "2025-12-01T16:00:00Z" ].

(** A record of [MOCK_DATA]: a flat dictionary. *)
Definition item : Type := list (string * json).

Definition product (i n : string) (price : Z) (c : string) : item :=
  [("id", JStr i); ("name", JStr n); ("price", JInt price); ("category", JStr c)].
Definition employee (i n dept : string) (salary : Z) : item :=
  [("id", JStr i); ("name", JStr n); ("department", JStr dept); ("salary", JInt salary)].
Definition customer (i n country : string) (revenue : Z) : item :=
  [("id", JStr i); ("name", JStr n); ("country", JStr country); ("revenue", JInt revenue)].
Definition category_row (i n descr : string) : item :=
  [("id", JStr i); ("name", JStr n); ("description", JStr descr)].

Definition MOCK_DATA : list (string * list item) :=
  [ ("products",
     [ product "P001" "Laptop" 1200 "Electronics";
       product "P002" "Smartphone" 800 "Electronics";
       product "P003" "Headphones" 150 "Electronics";
       product "P004" "Desk Chair" 350 "Furniture";
       product "P005" "Monitor" 400 "Electronics";
       product "P006" "Keyboard" 80 "Electronics";
       product "P007" "Mouse" 45 "Electronics";
       product "P008" "Desk" 500 "Furniture" ]);
    ("employees",
     [ employee "E001" "Nguyen Van A" "IT" 2000;
       employee "E002" "Tran Thi B" "HR" 1800;
       employee "E003" "Le Van C" "Finance" 2200;
       employee "E004" "Pham Thi D" "IT" 2100;
       employee "E005" "Hoang Van E" "Sales" 1900;
       employee "E006" "Vo Thi F" "Marketing" 1850 ]);
    ("customers",
     [ customer "C001" "Company A" "Vietnam" 50000;
       customer "C002" "Company B" "Japan" 75000;
       customer "C003" "Company C" "USA" 120000;
       customer "C004" "Company D" "Korea" 85000;
       customer "C005" "Company E" "Singapore" 65000 ]);
    ("categories",
     [ category_row "CAT01" "Electronics" "Electronic devices";
       category_row "CAT02" "Furniture" "Office furniture";
       category_row "CAT03" "Software" "Software licenses";
       category_row "CAT04" "Services" "Professional services" ]) ].

(** ** Helpers *)

(** The text of a file, up to what [json.load] makes of it. *)
Inductive file_data : Type :=
| Garbage                          (* [json.load] raises [JSONDecodeError]:
                                      empty, truncated or otherwise not JSON *)
| NonArray                         (* a JSON value that is not a list *)
| Array (items : list Template).   (* a JSON array of template objects *)

(** The two paths the store touches: [STORE_PATH] and [STORE_PATH + ".tmp"].
    [None] is a path that does not exist. *)
Record disk : Type := Disk
  { store_file : option file_data;
    tmp_file : option file_data }.

(** [load_store] on a store file that is text, or missing; the store file
    that cannot be read as UTF-8 is the matter of [load_store_bytes]. *)
Definition load_store (d : disk) : list Template :=
  match store_file d with
  | None => []
  | Some Garbage => []
  | Some NonArray => []
  | Some (Array data) => data
  end.

(** Where the operating system refuses to go on inside [save_store]. *)
Inductive fault : Type :=
| NoFault
| OpenFails       (* [open(tmp_path, "w")] raises *)
| DumpFails       (* a write of [json.dump] raises: the text stops part-way *)
| ReplaceFails.   (* [os.replace] raises *)

(** [open(tmp_path, "w")]: the sibling exists and is empty. *)
Definition open_tmp (d : disk) : disk :=
  {| store_file := store_file d; tmp_file := Some Garbage |}.

(** [json.dump(items, f, ...)] ran to its end and [f] was closed. *)
Definition dump_tmp (items : list Template) (d : disk) : disk :=
  {| store_file := store_file d; tmp_file := Some (Array items) |}.

(** [os.replace(tmp_path, STORE_PATH)]: one rename. *)
Definition os_replace (d : disk) : disk :=
  {| store_file := tmp_file d; tmp_file := None |}.

(** Every state of the disk that [save_store] passes through, in order; the
    text under [tmp_path] is [Garbage] from [open] until [json.dump] has
    written its last chunk. *)
Definition save_store_trace (flt : fault) (items : list Template) (d : disk)
  : list disk :=
  match flt with
  | OpenFails => [d]
  | DumpFails => [d; open_tmp d]
  | ReplaceFails => [d; open_tmp d; dump_tmp items (open_tmp d)]
  | NoFault =>
      [d; open_tmp d; dump_tmp items (open_tmp d);
       os_replace (dump_tmp items (open_tmp d))]
  end.

Definition save_store (flt : fault) (items : list Template) (d : disk)
  : outcome unit * disk :=
  match flt with
  | OpenFails => (OSError, d)
  | DumpFails => (OSError, open_tmp d)
  | ReplaceFails => (OSError, dump_tmp items (open_tmp d))
  | NoFault => (Return tt, os_replace (dump_tmp items (open_tmp d)))
  end.

Fixpoint find_by_id (items : list Template) (template_id : string)
  : option Template :=
  match items with
  | [] => None
  | it :: items' =>
      if Template.id it =? template_id then Some it
      else find_by_id items' template_id
  end.

(** The text under a path stops part-way or is otherwise not JSON. *)
Definition half_written (f : option file_data) : bool :=
  match f with
  | Some Garbage => true
  | _ => false
  end.

(** ** Dropdown data API *)

Record search_response : Type := SearchResponse
  { source : string;
    query : option string;
    data : list item }.

Definition search_dropdown_data (lower : string -> string)
    (source : string) (q field : option string) : outcome search_response :=
  match dict_get MOCK_DATA source with
  | None => HTTPException 404 ("Source '" ++ source ++ "' not found")
  | Some data =>
      let data :=
        if truthy q then
          let q_lower := lower (text q) in
          if truthy field then
            filter
              (fun item =>
                 str_in q_lower
                   (lower (str (dict_get_default item (text field) (JStr "")))))
              data
          else
            filter
              (fun item =>
                 existsb (fun kv => str_in q_lower (lower (str (snd kv)))) item)
              data
        else data in
      Return (SearchResponse source q data)
  end.

(** ** Templates API *)

(** [xs.sort(key=..., reverse=True)] for the key [updated_at]: a stable sort,
    largest key first; records with equal keys keep their order.  [insert_desc]
    lets [x] pass the records whose key is greater and puts it before the
    first record whose key is not, so before the records of equal key that
    followed it in the list. *)
Fixpoint insert_desc (x : Template) (l : list Template) : list Template :=
  match l with
  | [] => [x]
  | y :: l' =>
      if String.leb (Template.updated_at y) (Template.updated_at x)
      then x :: y :: l'
      else y :: insert_desc x l'
  end.

Definition sort_updated_at_reverse (l : list Template) : list Template :=
  fold_right insert_desc [] l.

Definition list_templates (lower : string -> string)
    (category q : option string) (d : disk) : list Template :=
  let saved := load_store d in
  let all_templates := (MOCK_TEMPLATES ++ saved)%list in
  let all_templates :=
    if truthy category
    then filter (fun t => Template.category t =? text category) all_templates
    else all_templates in
  let all_templates :=
    if truthy q
    then
      let q_lower := lower (text q) in
      filter (fun t => str_in q_lower (lower (Template.name t))) all_templates
    else all_templates in
  sort_updated_at_reverse all_templates.

Definition get_template (template_id : string) (d : disk) : outcome Template :=
  match find (fun tpl => Template.id tpl =? template_id) MOCK_TEMPLATES with
  | Some tpl => Return tpl
  | None =>
      match find_by_id (load_store d) template_id with
      | Some it => Return it
      | None => NotFound
      end
  end.

(** The duplicate check of [create_template]: some stored record has the
    payload's [name] and [category]. *)
Definition duplicate (payload : TemplateCreate) (items : list Template) : bool :=
  existsb
    (fun it =>
       (Template.name it =? TemplateCreate.name payload)
       && (Template.category it =? TemplateCreate.category payload))
    items.

Definition new_record (tid ts : string) (payload : TemplateCreate) : Template :=
  {| Template.id := tid;
     Template.name := TemplateCreate.name payload;
     Template.category := TemplateCreate.category payload;
     Template.content := TemplateCreate.content payload;
     Template.created_at := ts;
     Template.updated_at := ts |}.

Definition create_template (flt : fault) (tid ts : string)
    (payload : TemplateCreate) (d : disk) : outcome Template * disk :=
  let items := load_store d in
  if duplicate payload items then (Conflict, d)
  else
    let record := new_record tid ts payload in
    let items := (items ++ [record])%list in
    match save_store flt items d with
    | (Return _, d') => (Return record, d')
    | (HTTPException c m, d') => (HTTPException c m, d')
    | (OSError, d') => (OSError, d')
    end.

(** The four assignments of [update_template] on the dictionary [it]. *)
Definition overwrite (ts : string) (payload : TemplateCreate) (it : Template)
  : Template :=
  {| Template.id := Template.id it;
     Template.name := TemplateCreate.name payload;
     Template.category := TemplateCreate.category payload;
     Template.content := TemplateCreate.content payload;
     Template.created_at := Template.created_at it;
     Template.updated_at := ts |}.

(** [it] is the dictionary inside [items] that [find_by_id] returned: the
    assignments change [items] at the first record with that id. *)
Fixpoint assign_first (items : list Template) (template_id : string)
    (new : Template) : list Template :=
  match items with
  | [] => []
  | it :: items' =>
      if Template.id it =? template_id then new :: items'
      else it :: assign_first items' template_id new
  end.

Definition update_template (flt : fault) (ts : string) (template_id : string)
    (payload : TemplateCreate) (d : disk) : outcome Template * disk :=
  let items := load_store d in
  match find_by_id items template_id with
  | None => (NotFound, d)
  | Some it =>
      let it' := overwrite ts payload it in
      let items := assign_first items template_id it' in
      match save_store flt items d with
      | (Return _, d') => (Return it', d')
      | (HTTPException c m, d') => (HTTPException c m, d')
      | (OSError, d') => (OSError, d')
      end
  end.

Definition delete_template (flt : fault) (template_id : string) (d : disk)
  : outcome string * disk :=
  let items := load_store d in
  let before := List.length items in
  let items := filter (fun it => negb (Template.id it =? template_id)) items in
  if Nat.eqb (List.length items) before then (NotFound, d)
  else
    match save_store flt items d with
    | (Return _, d') => (Return template_id, d')
    | (HTTPException c m, d') => (HTTPException c m, d')
    | (OSError, d') => (OSError, d')
    end.

(** ** Calls in sequence *)

(** A mutating call together with what its environment gives it. *)
Inductive call : Type :=
| Create (flt : fault) (tid ts : string) (payload : TemplateCreate)
| Update (flt : fault) (ts : string) (template_id : string)
    (payload : TemplateCreate)
| Delete (flt : fault) (template_id : string).

Definition serve (c : call) (d : disk) : disk :=
  match c with
  | Create flt tid ts payload => snd (create_template flt tid ts payload d)
  | Update flt ts template_id payload =>
      snd (update_template flt ts template_id payload d)
  | Delete flt template_id => snd (delete_template flt template_id d)
  end.

Definition serve_all (cs : list call) (d : disk) : disk :=
  fold_left (fun d c => serve c d) cs d.

Definition ids (items : list Template) : list string :=
  map Template.id items.

Definition seed_id (template_id : string) : bool :=
  existsb (fun tpl => Template.id tpl =? template_id) MOCK_TEMPLATES.

(** What [uuid4()] is relied on for: the identifier drawn is no seed
    identifier and is not stored yet.  The code does not check it. *)
Definition fresh (tid : string) (d : disk) : Prop :=
  seed_id tid = false /\ ~ In tid (ids (load_store d)).

(** Every [Create] of the sequence draws a fresh identifier at its turn. *)
Fixpoint fresh_draws (cs : list call) (d : disk) : Prop :=
  match cs with
  | [] => True
  | c :: cs' =>
      match c with
      | Create _ tid _ _ => fresh tid d
      | _ => True
      end /\ fresh_draws cs' (serve c d)
  end.

(** Stored identifiers are pairwise distinct and none is a seed identifier. *)
Definition unique_ids (d : disk) : Prop :=
  NoDup (ids (load_store d))
  /\ Forall (fun i => seed_id i = false) (ids (load_store d)).

(** The store file holds a complete array, or what it held at [d0]. *)
Definition intact (d0 : disk) (items : list Template) (d : disk) : Prop :=
  store_file d = store_file d0 \/ store_file d = Some (Array items).

(** ** Two calls of [create_template] on two threads *)

Inductive thread : Type := T1 | T2.

(** Where a thread stands in [create_template]. *)
Inductive pc : Type :=
| AtWith                                   (* before [with _lock:] *)
| AtLoad                                   (* holds the lock *)
| AtCheck (items : list Template)          (* after [items = load_store()] *)
| AtSave (items : list Template) (record : Template)
                                           (* after [items.append(record)] *)
| AtExit (r : outcome Template)            (* leaving the [with] block *)
| Finished (r : outcome Template).         (* lock released, [r] delivered *)

(** What one call is given: its payload and its environment. *)
Record create_call : Type := CreateCall
  { c_payload : TemplateCreate;
    c_tid : string;
    c_ts : string;
    c_flt : fault }.

Record system : Type := System
  { files : disk;
    lock_held : bool;
    at1 : pc;
    at2 : pc }.

Definition at_thread (t : thread) (s : system) : pc :=
  match t with T1 => at1 s | T2 => at2 s end.

Definition goto (t : thread) (p : pc) (s : system) : system :=
  match t with
  | T1 => {| files := files s; lock_held := lock_held s; at1 := p; at2 := at2 s |}
  | T2 => {| files := files s; lock_held := lock_held s; at1 := at1 s; at2 := p |}
  end.

Definition set_lock (b : bool) (s : system) : system :=
  {| files := files s; lock_held := b; at1 := at1 s; at2 := at2 s |}.

Definition set_files (d : disk) (s : system) : system :=
  {| files := d; lock_held := lock_held s; at1 := at1 s; at2 := at2 s |}.

(** One move of thread [t]; [None] when it cannot move (it waits for the
    lock, or it has finished). *)
Definition step (calls : thread -> create_call) (t : thread) (s : system)
  : option system :=
  let c := calls t in
  match at_thread t s with
  | AtWith =>
      if lock_held s then None
      else Some (goto t AtLoad (set_lock true s))
  | AtLoad => Some (goto t (AtCheck (load_store (files s))) s)
  | AtCheck items =>
      if duplicate (c_payload c) items then Some (goto t (AtExit Conflict) s)
      else
        let record := new_record (c_tid c) (c_ts c) (c_payload c) in
        Some (goto t (AtSave (items ++ [record])%list record) s)
  | AtSave items record =>
      match save_store (c_flt c) items (files s) with
      | (Return _, d') => Some (goto t (AtExit (Return record)) (set_files d' s))
      | (HTTPException co m, d') =>
          Some (goto t (AtExit (HTTPException co m)) (set_files d' s))
      | (OSError, d') => Some (goto t (AtExit OSError) (set_files d' s))
      end
  | AtExit r => Some (goto t (Finished r) (set_lock false s))
  | Finished _ => None
  end.

Definition start (d : disk) : system :=
  {| files := d; lock_held := false; at1 := AtWith; at2 := AtWith |}.

(** The states the two threads can be in after any interleaving. *)
Inductive reaches (calls : thread -> create_call) (s0 : system)
  : system -> Prop :=
| reaches_start : reaches calls s0 s0
| reaches_step s t s' :
    reaches calls s0 s -> step calls t s = Some s' -> reaches calls s0 s'.

(** Running a schedule; a thread that cannot move lets its turn pass. *)
Fixpoint run (calls : thread -> create_call) (sched : list thread) (s : system)
  : system :=
  match sched with
  | [] => s
  | t :: sched' =>
      match step calls t s with
      | Some s' => run calls sched' s'
      | None => run calls sched' s
      end
  end.

Definition both_finished (s : system) (r1 r2 : outcome Template) : Prop :=
  at1 s = Finished r1 /\ at2 s = Finished r2.

Definition succeeded {A : Type} (r : outcome A) : bool :=
  match r with Return _ => true | _ => false end.

Definition same_key (p1 p2 : TemplateCreate) : Prop :=
  TemplateCreate.name p1 = TemplateCreate.name p2
  /\ TemplateCreate.category p1 = TemplateCreate.category p2.

(** ** What the claims about List speak of *)

(** [b] may follow [a] in a list sorted by [updated_at], latest first. *)
Definition not_later (a b : Template) : Prop :=
  String.leb (Template.updated_at b) (Template.updated_at a) = true.

(** What the two filters of List let through: the category, when one is
    given, equals the record's; the query, when one is given, occurs in the
    record's name, both taken in lower case. *)
Definition selected (lower : string -> string) (category q : option string)
    (t : Template) : bool :=
  (if truthy category then Template.category t =? text category else true)
  && (if truthy q then str_in (lower (text q)) (lower (Template.name t)) else true).

(** ** Invariant of the two threads *)

Definition in_block (p : pc) : bool :=
  match p with
  | AtLoad | AtCheck _ | AtSave _ _ | AtExit _ => true
  | AtWith | Finished _ => false
  end.

Definition won (p : pc) : bool :=
  match p with
  | AtExit (Return _) | Finished (Return _) => true
  | _ => false
  end.

(** How many moves a thread has left at most. *)
Definition steps_left (p : pc) : nat :=
  match p with
  | AtWith => 5
  | AtLoad => 4
  | AtCheck _ => 3
  | AtSave _ _ => 2
  | AtExit _ => 1
  | Finished _ => 0
  end.

Section TwoCreates.

Variable calls : thread -> create_call.
Variable d0 : disk.

(** The duplicate check of the two calls, which share their key. *)
Definition taken (d : disk) : bool :=
  duplicate (c_payload (calls T1)) (load_store d).

Definition outcome_ok (t : thread) (d : disk) (r : outcome Template) : Prop :=
  match r with
  | Return x =>
      x = new_record (c_tid (calls t)) (c_ts (calls t)) (c_payload (calls t))
      /\ taken d = true
  | HTTPException _ _ => r = Conflict /\ taken d = true
  | OSError => c_flt (calls t) <> NoFault /\ taken d0 = false
  end.

Definition pc_ok (t : thread) (d : disk) (p : pc) : Prop :=
  match p with
  | AtWith | AtLoad => True
  | AtCheck items => items = load_store d
  | AtSave items record =>
      items = (load_store d ++ [record])%list
      /\ record = new_record (c_tid (calls t)) (c_ts (calls t)) (c_payload (calls t))
      /\ taken d = false
  | AtExit r | Finished r => outcome_ok t d r
  end.

Record inv (s : system) : Prop :=
  { inv_lock : lock_held s = in_block (at1 s) || in_block (at2 s);
    inv_excl : in_block (at1 s) && in_block (at2 s) = false;
    inv_mono : taken d0 = true -> taken (files s) = true;
    inv_orig : taken (files s) = true ->
               taken d0 = true \/ won (at1 s) || won (at2 s) = true;
    inv_one : won (at1 s) && won (at2 s) = false;
    inv_none : taken d0 = true -> won (at1 s) || won (at2 s) = false;
    inv_pc1 : pc_ok T1 (files s) (at1 s);
    inv_pc2 : pc_ok T2 (files s) (at2 s) }.

End TwoCreates.

(** The outcome the two calls are said to have: one returns, the other
    raises Conflict. *)
Definition one_success_one_conflict (r1 r2 : outcome Template) : Prop :=
  (succeeded r1 = true /\ r2 = Conflict)
  \/ (r1 = Conflict /\ succeeded r2 = true).

(** ** Concrete stores used as examples *)

(** [str.lower] on ASCII text. *)
Definition lower_char (c : ascii) : ascii :=
  let n := nat_of_ascii c in
  if (65 <=? n)%nat && (n <=? 90)%nat then ascii_of_nat (n + 32) else c.

Fixpoint lower_ascii (s : string) : string :=
  match s with
  | EmptyString => EmptyString
  | String c s' => String (lower_char c) (lower_ascii s')
  end.

Definition garbage_disk : disk := {| store_file := Some Garbage; tmp_file := None |}.

Definition empty_disk : disk := {| store_file := None; tmp_file := None |}.

Definition sales_payload : TemplateCreate :=
  TemplateCreate.Build "Sales Report Template" "Sales" (JDict [("sheetOrder", JList [])]).

Definition sales_v2_payload : TemplateCreate :=
  TemplateCreate.Build "Sales Report v2" "Sales" (JDict []).

Definition uuid_a : string := "1b4e28ba-2fa1-4d3b-a3f5-08c1e4d0a001".
Definition uuid_b : string := "9f0c6c1e-7b7e-4c55-8d2a-5a4b1f6e0002".
Definition time_1 : string := "2026-01-05T09:00:00.250000+00:00".
Definition time_2 : string := "2026-01-05T09:00:07.125000+00:00".

Definition sales_record : Template := new_record uuid_a time_1 sales_payload.

Definition sales_disk : disk :=
  {| store_file := Some (Array [sales_record]); tmp_file := None |}.

Definition example_calls : list call :=
  [ Create NoFault uuid_a time_1 sales_payload;
    Update NoFault time_2 uuid_a sales_v2_payload ].

(** Two calls with the payload of [sales_record]. *)
Definition example_race (t : thread) : create_call :=
  match t with
  | T1 => CreateCall sales_payload uuid_b time_2 NoFault
  | T2 => CreateCall sales_payload "5c3f9a77-0c1d-4e8e-9b61-3d2f7a9e0003"
            "2026-01-05T09:00:07.125400+00:00" NoFault
  end.

Definition example_schedule : list thread :=
  [T1; T2; T1; T1; T2; T1; T1; T2; T2; T2; T2; T2].

(** ** The other dropdown handlers *)

Definition get_dropdown_data (source : string) : outcome (string * list item) :=
  match dict_get MOCK_DATA source with
  | None => HTTPException 404 ("Source '" ++ source ++ "' not found")
  | Some data => Return (source, data)
  end.

Record source_entry : Type := SourceEntry
  { entry_id : string;
    entry_name : string;
    count : nat }.

(** [title] stands for [str.title]. *)
Definition list_dropdown_sources (title : string -> string) : list source_entry :=
  map (fun kv => SourceEntry (fst kv) (title (fst kv)) (length (snd kv)))
    MOCK_DATA.

(** ** Conditions on stored records *)

(** The (name, category) of a stored record. *)
Definition key_of (it : Template) : string * string :=
  (Template.name it, Template.category it).

(** No two stored records share both name and category. *)
Definition unique_keys (d : disk) : Prop :=
  NoDup (map key_of (load_store d)).

(** No stored record was updated before it was created. *)
Definition stamps_ordered (d : disk) : Prop :=
  Forall (fun it => String.leb (Template.created_at it) (Template.updated_at it) = true)
    (load_store d).

(** What [Field(..., min_length=1)] lets through on [name] and [category]. *)
Definition valid_payload (payload : TemplateCreate) : bool :=
  negb (TemplateCreate.name payload =? "")
  && negb (TemplateCreate.category payload =? "").

Definition named (d : disk) : Prop :=
  Forall (fun it => Template.name it <> "" /\ Template.category it <> "")
    (load_store d).

Definition payload_of (c : call) : option TemplateCreate :=
  match c with
  | Create _ _ _ payload => Some payload
  | Update _ _ _ payload => Some payload
  | Delete _ _ => None
  end.

Definition fault_of (c : call) : fault :=
  match c with
  | Create flt _ _ _ => flt
  | Update flt _ _ _ => flt
  | Delete flt _ => flt
  end.

(** The id a call creates, updates or deletes. *)
Definition touched (c : call) : string :=
  match c with
  | Create _ tid _ _ => tid
  | Update _ _ template_id _ => template_id
  | Delete _ template_id => template_id
  end.

(** Whether the handler of a call returned, raised an HTTP error, or let an
    [OSError] escape. *)
Inductive verdict : Type := Returned | Refused (status_code : Z) | Failed.

Definition verdict_of {A : Type} (r : outcome A) : verdict :=
  match r with
  | Return _ => Returned
  | HTTPException c _ => Refused c
  | OSError => Failed
  end.

Definition answer (c : call) (d : disk) : verdict :=
  match c with
  | Create flt tid ts payload => verdict_of (fst (create_template flt tid ts payload d))
  | Update flt ts template_id payload =>
      verdict_of (fst (update_template flt ts template_id payload d))
  | Delete flt template_id => verdict_of (fst (delete_template flt template_id d))
  end.

(** The clock of an Update does not read earlier than the stamp of the
    record it updates. *)
Definition clock_ok (c : call) (d : disk) : Prop :=
  match c with
  | Update _ ts template_id _ =>
      forall it, find_by_id (load_store d) template_id = Some it ->
                 String.leb (Template.updated_at it) ts = true
  | _ => True
  end.

Fixpoint clock_never_back (cs : list call) (d : disk) : Prop :=
  match cs with
  | [] => True
  | c :: cs' => clock_ok c d /\ clock_never_back cs' (serve c d)
  end.

Definition validated (c : call) : bool :=
  match payload_of c with
  | Some payload => valid_payload payload
  | None => true
  end.

(** A store with two records. *)
Definition two_disk : disk :=
  {| store_file :=
       Some (Array [sales_record; new_record uuid_b time_2 sales_v2_payload]);
     tmp_file := None |}.

(** ** Any two calls of [create_template] on two threads *)

(** The record a call builds once its duplicate check has passed. *)
Definition record_of (calls : thread -> create_call) (t : thread) : Template :=
  new_record (c_tid (calls t)) (c_ts (calls t)) (c_payload (calls t)).

(** What a thread standing at [p] has appended to the store file. *)
Definition appended (p : pc) (x : Template) : list Template :=
  if won p then [x] else [].

Section AnyTwoCreates.

Variable calls : thread -> create_call.
Variable d0 : disk.

Definition outcome_sound (t : thread) (d : disk) (r : outcome Template) : Prop :=
  match r with
  | Return x => x = record_of calls t
  | HTTPException _ _ =>
      r = Conflict /\ duplicate (c_payload (calls t)) (load_store d) = true
  | OSError => c_flt (calls t) <> NoFault
  end.

Definition pc_sound (t : thread) (d : disk) (p : pc) : Prop :=
  match p with
  | AtWith | AtLoad => True
  | AtCheck items => items = load_store d
  | AtSave items record =>
      items = (load_store d ++ [record])%list
      /\ record = record_of calls t
      /\ duplicate (c_payload (calls t)) (load_store d) = false
  | AtExit r | Finished r => outcome_sound t d r
  end.

Record ginv (s : system) : Prop :=
  { g_lock : lock_held s = in_block (at1 s) || in_block (at2 s);
    g_excl : in_block (at1 s) && in_block (at2 s) = false;
    g_files :
      load_store (files s)
      = (load_store d0 ++ appended (at1 s) (record_of calls T1)
           ++ appended (at2 s) (record_of calls T2))%list
      \/ load_store (files s)
         = (load_store d0 ++ appended (at2 s) (record_of calls T2)
              ++ appended (at1 s) (record_of calls T1))%list;
    g_pc1 : pc_sound T1 (files s) (at1 s);
    g_pc2 : pc_sound T2 (files s) (at2 s) }.

End AnyTwoCreates.

Definition different_key (p1 p2 : TemplateCreate) : Prop :=
  TemplateCreate.name p1 <> TemplateCreate.name p2
  \/ TemplateCreate.category p1 <> TemplateCreate.category p2.

(** Two calls with different payloads. *)
Definition example_pair (t : thread) : create_call :=
  match t with
  | T1 => CreateCall sales_payload uuid_a time_1 NoFault
  | T2 => CreateCall sales_v2_payload uuid_b time_2 NoFault
  end.

(** ** The store file as bytes *)

(** What [open(STORE_PATH, "r", encoding="utf-8")] meets: bytes that are not
    UTF-8, or text. *)
Inductive file_bytes : Type :=
| NotUtf8                    (* reading the file raises [UnicodeDecodeError] *)
| Utf8 (text : file_data).

(** The sibling file is only ever opened for writing: what [json.load] would
    make of it is all that is kept. *)
Record byte_disk : Type := ByteDisk
  { store_bytes : option file_bytes;
    tmp_text : option file_data }.

(** What a handler does once the store file has been read, or the
    [UnicodeDecodeError] that reading raised. *)
Inductive read (A : Type) : Type :=
| Read (a : A)
| UnicodeDecodeError.

Arguments Read {A} a.
Arguments UnicodeDecodeError {A}.

(** [load_store] on bytes: [json.load(f)] reads [f] inside the [try], and
    [except json.JSONDecodeError] does not catch a [UnicodeDecodeError]. *)
Definition load_store_bytes (b : byte_disk) : read (list Template) :=
  match store_bytes b with
  | None => Read []
  | Some NotUtf8 => UnicodeDecodeError
  | Some (Utf8 Garbage) => Read []
  | Some (Utf8 NonArray) => Read []
  | Some (Utf8 (Array data)) => Read data
  end.

(** The disk that the handlers above work on, when the store file is text. *)
Definition as_text (b : byte_disk) : read disk :=
  match store_bytes b with
  | None => Read {| store_file := None; tmp_file := tmp_text b |}
  | Some NotUtf8 => UnicodeDecodeError
  | Some (Utf8 text) => Read {| store_file := Some text; tmp_file := tmp_text b |}
  end.

(** A handler whose first statement is [load_store()]: the error of
    [load_store] escapes it, otherwise it goes on as on the text. *)
Definition after_load {A : Type} (handler : disk -> A) (b : byte_disk) : read A :=
  match as_text b with
  | Read d => Read (handler d)
  | UnicodeDecodeError => UnicodeDecodeError
  end.

Definition list_templates_bytes (lower : string -> string)
    (category q : option string) : byte_disk -> read (list Template) :=
  after_load (list_templates lower category q).

Definition create_template_bytes (flt : fault) (tid ts : string)
    (payload : TemplateCreate) : byte_disk -> read (outcome Template * disk) :=
  after_load (create_template flt tid ts payload).

Definition update_template_bytes (flt : fault) (ts : string) (template_id : string)
    (payload : TemplateCreate) : byte_disk -> read (outcome Template * disk) :=
  after_load (update_template flt ts template_id payload).

Definition delete_template_bytes (flt : fault) (template_id : string)
  : byte_disk -> read (outcome string * disk) :=
  after_load (delete_template flt template_id).

(** [get_template] looks at the seeds before it loads the store. *)
Definition get_template_bytes (template_id : string) (b : byte_disk)
  : read (outcome Template) :=
  match find (fun tpl => Template.id tpl =? template_id) MOCK_TEMPLATES with
  | Some tpl => Read (Return tpl)
  | None => after_load (get_template template_id) b
  end.

(** A clock reading just before [time_1]. *)
Definition time_0 : string := "2026-01-05T08:59:59.900000+00:00".

(** * Properties *)

(** ** Loading and saving *)

Lemma load_store_saved items d :
  load_store (snd (save_store NoFault items d)) = items.
Proof. reflexivity. Qed.

Lemma save_store_returns flt items d u d' :
  save_store flt items d = (Return u, d') ->
  flt = NoFault /\ d' = {| store_file := Some (Array items); tmp_file := None |}.
Proof.
  destruct flt; simpl; intros H; inversion H; subst; split; reflexivity.
Qed.

Lemma save_store_fails flt items d :
  flt <> NoFault ->
  fst (save_store flt items d) = OSError
  /\ store_file (snd (save_store flt items d)) = store_file d.
Proof.
  destruct flt; simpl; intros H; try (split; reflexivity); contradiction.
Qed.

Lemma load_store_store_file d d' :
  store_file d' = store_file d -> load_store d' = load_store d.
Proof. unfold load_store; intros ->; reflexivity. Qed.

(** ** Looking records up *)

Lemma find_by_id_none items template_id :
  find_by_id items template_id = None <-> ~ In template_id (ids items).
Proof.
  induction items as [|it items IH]; simpl.
  - split; auto.
  - destruct (String.eqb_spec (Template.id it) template_id) as [E|E].
    + split; [discriminate | intros H; exfalso; apply H; left; exact E].
    + rewrite IH. split; [intros H [F|F]; auto | intros H F; apply H; right; exact F].
Qed.

Lemma find_by_id_some items template_id it :
  find_by_id items template_id = Some it ->
  In it items /\ Template.id it = template_id.
Proof.
  induction items as [|x items IH]; simpl; [discriminate|].
  destruct (String.eqb_spec (Template.id x) template_id) as [E|E].
  - intros H; inversion H; subst; split; [left; reflexivity | reflexivity].
  - intros H; destruct (IH H) as [I J]; split; [right; exact I | exact J].
Qed.

Lemma find_by_id_app_fresh items tid record :
  ~ In tid (ids items) -> Template.id record = tid ->
  find_by_id (items ++ [record]) tid = Some record.
Proof.
  induction items as [|x items IH]; simpl; intros N E.
  - rewrite E, String.eqb_refl; reflexivity.
  - destruct (String.eqb_spec (Template.id x) tid) as [F|F].
    + exfalso; apply N; left; exact F.
    + apply IH; [intros I; apply N; right; exact I | exact E].
Qed.

Lemma seed_id_find template_id :
  seed_id template_id = false ->
  find (fun tpl => Template.id tpl =? template_id) MOCK_TEMPLATES = None.
Proof.
  unfold seed_id; intros H.
  destruct (find _ MOCK_TEMPLATES) as [tpl|] eqn:F; [|reflexivity].
  apply find_some in F; destruct F as [I E].
  assert (X : existsb (fun tpl => Template.id tpl =? template_id) MOCK_TEMPLATES = true)
    by (apply existsb_exists; exists tpl; split; assumption).
  rewrite X in H; discriminate.
Qed.

Lemma duplicate_true payload items :
  duplicate payload items = true <->
  exists it, In it items
             /\ Template.name it = TemplateCreate.name payload
             /\ Template.category it = TemplateCreate.category payload.
Proof.
  unfold duplicate; rewrite existsb_exists; split.
  - intros [it [I H]]; apply andb_true_iff in H; destruct H as [N C].
    apply String.eqb_eq in N, C; exists it; auto.
  - intros [it [I [N C]]]; exists it; split; [exact I|].
    rewrite N, C, !String.eqb_refl; reflexivity.
Qed.

(** ** The example scenario *)

Example create_on_empty_disk :
  create_template NoFault uuid_a time_1 sales_payload empty_disk
  = (Return sales_record, sales_disk).
Proof. reflexivity. Qed.

Example create_twice :
  create_template NoFault uuid_b time_2 sales_payload sales_disk
  = (Conflict, sales_disk).
Proof. reflexivity. Qed.

Example scenario_of_the_store :
  let d1 := snd (create_template NoFault uuid_a time_1 sales_payload empty_disk) in
  let d2 := snd (update_template NoFault time_2 uuid_a sales_v2_payload d1) in
  let d3 := snd (delete_template NoFault uuid_a d2) in
  map Template.id (list_templates lower_ascii None None d1)
  = [uuid_a; "tpl-001"; "tpl-002"; "tpl-003"]
  /\ fst (update_template NoFault time_2 uuid_a sales_v2_payload d1)
     = Return (Template.Build uuid_a "Sales Report v2" "Sales" (JDict []) time_1 time_2)
  /\ fst (delete_template NoFault uuid_a d2) = Return uuid_a
  /\ get_template uuid_a d3 = NotFound.
Proof. repeat split. Qed.

(** ** Create *)

(** C3: a Create whose (name, category) is that of a stored record fails with
    Conflict and leaves the disk, hence the stored collection and its count,
    as it was; the seed templates play no part in the check, so a Create
    whose (name, category) is that of a seed template only, and of no stored
    record, succeeds and appends its record. *)
Theorem create_conflict_enforcement flt tid ts payload d :
  ((exists it, In it (load_store d)
               /\ Template.name it = TemplateCreate.name payload
               /\ Template.category it = TemplateCreate.category payload) ->
   create_template flt tid ts payload d = (Conflict, d)
   /\ length (load_store (snd (create_template flt tid ts payload d)))
      = length (load_store d))
  /\
  ((exists tpl, In tpl MOCK_TEMPLATES
                /\ Template.name tpl = TemplateCreate.name payload
                /\ Template.category tpl = TemplateCreate.category payload) ->
   (forall it, In it (load_store d) ->
               ~ (Template.name it = TemplateCreate.name payload
                  /\ Template.category it = TemplateCreate.category payload)) ->
   fst (create_template NoFault tid ts payload d)
   = Return (new_record tid ts payload)
   /\ load_store (snd (create_template NoFault tid ts payload d))
      = (load_store d ++ [new_record tid ts payload])%list).
Proof.
  split.
  - intros H. apply duplicate_true in H.
    unfold create_template. rewrite H. split; reflexivity.
  - intros _ H.
    assert (D : duplicate payload (load_store d) = false).
    { destruct (duplicate payload (load_store d)) eqn:E; [|reflexivity].
      apply duplicate_true in E. destruct E as [it [I [N C]]].
      exfalso. apply (H it I). split; assumption. }
    unfold create_template. rewrite D. split; reflexivity.
Qed.

Lemma create_conflict_enforcement_witness :
  (create_template NoFault uuid_b time_2 sales_payload sales_disk
   = (Conflict, sales_disk)
   /\ length (load_store
                (snd (create_template NoFault uuid_b time_2 sales_payload sales_disk)))
      = length (load_store sales_disk))
  /\ (fst (create_template NoFault uuid_a time_1 sales_payload empty_disk)
      = Return (new_record uuid_a time_1 sales_payload)
      /\ load_store (snd (create_template NoFault uuid_a time_1 sales_payload empty_disk))
         = (load_store empty_disk ++ [new_record uuid_a time_1 sales_payload])%list).
Proof.
  split.
  - apply (proj1 (create_conflict_enforcement NoFault uuid_b time_2 sales_payload sales_disk)).
    exists sales_record. simpl. split; [left; reflexivity | split; reflexivity].
  - apply (proj2 (create_conflict_enforcement NoFault uuid_a time_1 sales_payload empty_disk)).
    + exists (nth 0 MOCK_TEMPLATES sales_record). simpl.
      split; [left; reflexivity | split; reflexivity].
    + simpl. intros it [].
Defined.

Lemma create_template_returns flt tid ts payload d x d' :
  create_template flt tid ts payload d = (Return x, d') ->
  duplicate payload (load_store d) = false
  /\ x = new_record tid ts payload
  /\ d' = {| store_file := Some (Array (load_store d ++ [x])); tmp_file := None |}.
Proof.
  unfold create_template.
  destruct (duplicate payload (load_store d)); [discriminate|].
  destruct (save_store flt _ d) as [[u|c m|] d1] eqn:S; try discriminate.
  intros H; inversion H; subst.
  apply save_store_returns in S. destruct S as [_ S].
  split; [reflexivity | split; [reflexivity | exact S]].
Qed.

(** C5: when Create returns the record [x], and the identifier drawn for it
    was fresh, Get of [x]'s id on the resulting disk returns [x] itself, so a
    record with the name, category and content of the call; and [x] has
    created_at = updated_at = the time drawn at creation. *)
Theorem create_get_round_trip flt tid ts payload d x d' :
  fresh tid d ->
  create_template flt tid ts payload d = (Return x, d') ->
  get_template (Template.id x) d' = Return x
  /\ Template.name x = TemplateCreate.name payload
  /\ Template.category x = TemplateCreate.category payload
  /\ Template.content x = TemplateCreate.content payload
  /\ Template.created_at x = Template.updated_at x
  /\ Template.created_at x = ts.
Proof.
  intros [Fs Fp] H.
  apply create_template_returns in H. destruct H as [_ [X D]].
  subst x d'. simpl. repeat split.
  unfold get_template. simpl Template.id.
  rewrite (seed_id_find tid Fs).
  change (load_store _) with (load_store d ++ [new_record tid ts payload])%list.
  rewrite (find_by_id_app_fresh (load_store d) tid (new_record tid ts payload) Fp eq_refl).
  reflexivity.
Qed.

Lemma create_get_round_trip_witness :
  get_template (Template.id sales_record) sales_disk = Return sales_record
  /\ Template.name sales_record = TemplateCreate.name sales_payload
  /\ Template.category sales_record = TemplateCreate.category sales_payload
  /\ Template.content sales_record = TemplateCreate.content sales_payload
  /\ Template.created_at sales_record = Template.updated_at sales_record
  /\ Template.created_at sales_record = time_1.
Proof.
  apply (create_get_round_trip NoFault uuid_a time_1 sales_payload empty_disk
           sales_record sales_disk).
  - split; [reflexivity | simpl; intros F; exact F].
  - reflexivity.
Defined.

(** ** Corrupted and missing files *)

(** On text: when the store file is missing, is not JSON, or holds a JSON value
    that is no array, [load_store] returns the empty list; List then returns
    seed templates only (all three, in their order, when no filter is given),
    and a Create that follows succeeds and leaves a store file that is a
    complete array holding the new record. *)
Theorem corruption_tolerance lower d :
  store_file d = None \/ store_file d = Some Garbage
  \/ store_file d = Some NonArray ->
  load_store d = []
  /\ list_templates lower None None d = MOCK_TEMPLATES
  /\ (forall category q t,
        In t (list_templates lower category q d) -> In t MOCK_TEMPLATES)
  /\ (forall category q,
        list_templates lower category q d
        = list_templates lower category q empty_disk)
  /\ (forall tid ts payload,
        fst (create_template NoFault tid ts payload d)
        = Return (new_record tid ts payload)
        /\ store_file (snd (create_template NoFault tid ts payload d))
           = Some (Array [new_record tid ts payload])).
Proof.
  intros H.
  assert (L : load_store d = [])
    by (unfold load_store; destruct H as [-> | [-> | ->]]; reflexivity).
  split; [exact L|].
  assert (E : forall category q,
             list_templates lower category q d
             = list_templates lower category q empty_disk)
    by (intros; unfold list_templates; rewrite L; reflexivity).
  split; [unfold list_templates; rewrite L; reflexivity|].
  split; [|split; [exact E|]].
  - intros category q t. rewrite E. unfold list_templates.
    change (load_store empty_disk) with (@nil Template). rewrite app_nil_r.
    set (l1 := if truthy category then _ else _).
    set (l2 := if truthy q then _ else _).
    assert (I1 : forall u, In u l1 -> In u MOCK_TEMPLATES).
    { subst l1. destruct (truthy category); [|auto].
      intros u Hu. apply filter_In in Hu. tauto. }
    assert (I2 : forall u, In u l2 -> In u MOCK_TEMPLATES).
    { subst l2. destruct (truthy q); [|auto].
      intros u Hu. apply filter_In in Hu. apply I1. tauto. }
    clearbody l2. clear - I2. revert t.
    induction l2 as [|x l2 IH]; simpl; [tauto|].
    intros t Ht.
    assert (S : forall l, In t (insert_desc x l) -> t = x \/ In t l).
    { clear. induction l as [|y l IHl]; simpl.
      - intros [<-|[]]; left; reflexivity.
      - destruct (String.leb _ _); simpl.
        + intros [<-|[<-|I]]; auto.
        + intros [<-|I]; auto. destruct (IHl I); auto. }
    destruct (S _ Ht) as [->|I].
    + apply I2; left; reflexivity.
    + apply IH; [intros u Hu; apply I2; right; exact Hu | exact I].
  - intros tid ts payload. unfold create_template. rewrite L. simpl. split; reflexivity.
Qed.

Lemma corruption_tolerance_witness :
  load_store garbage_disk = []
  /\ list_templates lower_ascii None None garbage_disk = MOCK_TEMPLATES
  /\ fst (create_template NoFault uuid_a time_1 sales_payload garbage_disk)
     = Return sales_record
  /\ store_file (snd (create_template NoFault uuid_a time_1 sales_payload garbage_disk))
     = Some (Array [sales_record]).
Proof.
  destruct (corruption_tolerance lower_ascii garbage_disk (or_intror (or_introl eq_refl)))
    as [L [M [_ [_ C]]]].
  destruct (C uuid_a time_1 sales_payload) as [C1 C2].
  repeat split; assumption.
Defined.

(** ** Empty filters *)

(** C10: List with the category (or the query) given as the empty string
    returns what the same call returns without that filter; the dropdown
    search given [q] as the empty string filters nothing either: its data is
    the whole source, as without [q]. *)
Theorem empty_filter_is_no_filter lower category q d source field :
  list_templates lower (Some "") q d = list_templates lower None q d
  /\ list_templates lower category (Some "") d = list_templates lower category None d
  /\ search_dropdown_data lower source (Some "") field
     = match dict_get MOCK_DATA source with
       | Some data => Return (SearchResponse source (Some "") data)
       | None => HTTPException 404 ("Source '" ++ source ++ "' not found")
       end
  /\ search_dropdown_data lower source None field
     = match dict_get MOCK_DATA source with
       | Some data => Return (SearchResponse source None data)
       | None => HTTPException 404 ("Source '" ++ source ++ "' not found")
       end.
Proof.
  repeat split; unfold search_dropdown_data; simpl;
    destruct (dict_get MOCK_DATA source); reflexivity.
Qed.

Example search_products_by_name :
  search_dropdown_data lower_ascii "products" (Some "LAP") (Some "name")
  = Return (SearchResponse "products" (Some "LAP")
              [product "P001" "Laptop" 1200 "Electronics"]).
Proof. reflexivity. Qed.

Example search_products_any_field :
  search_dropdown_data lower_ascii "products" (Some "35") None
  = Return (SearchResponse "products" (Some "35")
              [product "P004" "Desk Chair" 350 "Furniture"]).
Proof. reflexivity. Qed.

Example list_by_category_and_query :
  map Template.id (list_templates lower_ascii (Some "Sales") (Some "REPORT") sales_disk)
  = [uuid_a; "tpl-001"].
Proof. reflexivity. Qed.

(** ** Atomic replacement *)

(** C2: [save_store] writes the whole collection under the sibling path and
    then renames it onto the store path.  In every state the disk passes
    through, whatever the operating system refuses and wherever the run
    stops, the store file is the file that was there before or the complete
    array; it is half-written only if it was so before.  A save that returns
    leaves the complete array, a save that raises leaves the prior file; and
    after any mutating call the store file is the prior one or a complete
    array. *)
Theorem save_store_atomic_replace flt items d :
  Forall (intact d items) (save_store_trace flt items d)
  /\ Forall (fun d' => half_written (store_file d') = true ->
                       half_written (store_file d) = true)
       (save_store_trace flt items d)
  /\ last (save_store_trace flt items d) d = snd (save_store flt items d)
  /\ match fst (save_store flt items d) with
     | Return _ =>
         snd (save_store flt items d)
         = os_replace (dump_tmp items (open_tmp d))
         /\ store_file (snd (save_store flt items d)) = Some (Array items)
     | _ => store_file (snd (save_store flt items d)) = store_file d
     end
  /\ (forall c,
        store_file (serve c d) = store_file d
        \/ exists items', store_file (serve c d) = Some (Array items')).
Proof.
  split; [|split; [|split; [|split]]].
  - destruct flt; simpl; repeat (constructor; [unfold intact; simpl; auto|]); constructor.
  - destruct flt; simpl; repeat (constructor; [simpl; auto; discriminate|]); constructor.
  - destruct flt; reflexivity.
  - destruct flt; simpl; auto.
  - intros c.
    assert (S : forall f its,
               store_file (snd (save_store f its d)) = store_file d
               \/ store_file (snd (save_store f its d)) = Some (Array its))
      by (intros f its; destruct f; simpl; auto).
    destruct c as [f tid ts payload | f ts template_id payload | f template_id]; simpl.
    + unfold create_template. destruct (duplicate _ _); [left; reflexivity|].
      match goal with |- context [save_store f ?its d] =>
        destruct (S f its) as [E|E]; destruct (save_store f its d) as [[u|c m|] d1];
        simpl in *; eauto end.
    + unfold update_template. destruct (find_by_id _ _); [|left; reflexivity].
      match goal with |- context [save_store f ?its d] =>
        destruct (S f its) as [E|E]; destruct (save_store f its d) as [[u|c m|] d1];
        simpl in *; eauto end.
    + unfold delete_template. destruct (Nat.eqb _ _); [left; reflexivity|].
      match goal with |- context [save_store f ?its d] =>
        destruct (S f its) as [E|E]; destruct (save_store f its d) as [[u|c m|] d1];
        simpl in *; eauto end.
Qed.

Lemma save_store_atomic_replace_witness :
  Forall (fun d' => half_written (store_file d') = true ->
                    half_written (store_file sales_disk) = true)
    (save_store_trace DumpFails [] sales_disk)
  /\ store_file (snd (save_store DumpFails [] sales_disk)) = store_file sales_disk.
Proof.
  destruct (save_store_atomic_replace DumpFails [] sales_disk) as [_ [H [_ [K _]]]].
  split; [exact H | exact K].
Defined.

(** ** Update *)

Lemma assign_first_ids items template_id new :
  Template.id new = template_id ->
  ids (assign_first items template_id new) = ids items.
Proof.
  intros E. induction items as [|x items IH]; simpl; [reflexivity|].
  destruct (String.eqb_spec (Template.id x) template_id) as [F|F]; simpl.
  - rewrite E, F; reflexivity.
  - rewrite IH; reflexivity.
Qed.

Lemma assign_first_find items template_id new :
  Template.id new = template_id ->
  In template_id (ids items) ->
  find_by_id (assign_first items template_id new) template_id = Some new.
Proof.
  intros E. induction items as [|x items IH]; simpl; [tauto|].
  destruct (String.eqb_spec (Template.id x) template_id) as [F|F]; simpl.
  - intros _. rewrite E, String.eqb_refl; reflexivity.
  - intros [G|G]; [contradiction|].
    destruct (String.eqb_spec (Template.id x) template_id); [contradiction|].
    apply IH; exact G.
Qed.

Lemma assign_first_others items template_id new other :
  Template.id new = template_id ->
  Template.id other <> template_id ->
  In other (assign_first items template_id new) <-> In other items.
Proof.
  intros E N. induction items as [|x items IH]; simpl; [tauto|].
  destruct (String.eqb_spec (Template.id x) template_id) as [F|F]; simpl.
  - split; intros [G|G]; auto; exfalso; apply N; subst other; congruence.
  - rewrite IH; tauto.
Qed.

Lemma seed_id_not_stored d template_id :
  unique_ids d -> seed_id template_id = true ->
  ~ In template_id (ids (load_store d)).
Proof.
  intros [_ U] S I. rewrite Forall_forall in U.
  rewrite (U _ I) in S; discriminate.
Qed.

Lemma update_template_not_found flt ts template_id payload d :
  ~ In template_id (ids (load_store d)) ->
  update_template flt ts template_id payload d = (NotFound, d).
Proof.
  intros N. apply find_by_id_none in N.
  unfold update_template; rewrite N; reflexivity.
Qed.

(** C6, as amended: Update of an id that no stored record has fails with
    NotFound and leaves the disk as it was; so it does for every seed id, no
    seed id being stored.  Update of a stored id returns the first record
    with that id with name, category and content overwritten, updated_at set
    to the time read by [now_iso()], id and created_at as they were; the two
    stamps are not compared, so updated_at after is not below updated_at
    before exactly when the clock does not read earlier than the stored
    stamp.  The stored collection changes at that record only. *)
Theorem update_template_frame flt ts template_id payload d :
  (~ In template_id (ids (load_store d)) ->
   update_template flt ts template_id payload d = (NotFound, d))
  /\
  (unique_ids d -> seed_id template_id = true ->
   update_template flt ts template_id payload d = (NotFound, d))
  /\
  (In template_id (ids (load_store d)) ->
   exists it it',
     find_by_id (load_store d) template_id = Some it
     /\ fst (update_template NoFault ts template_id payload d) = Return it'
     /\ Template.name it' = TemplateCreate.name payload
     /\ Template.category it' = TemplateCreate.category payload
     /\ Template.content it' = TemplateCreate.content payload
     /\ Template.updated_at it' = ts
     /\ Template.created_at it' = Template.created_at it
     /\ Template.id it' = Template.id it
     /\ String.leb (Template.updated_at it) (Template.updated_at it')
        = String.leb (Template.updated_at it) ts
     /\ find_by_id (load_store (snd (update_template NoFault ts template_id payload d)))
          template_id = Some it'
     /\ ids (load_store (snd (update_template NoFault ts template_id payload d)))
        = ids (load_store d)
     /\ (forall other, Template.id other <> template_id ->
           In other (load_store (snd (update_template NoFault ts template_id payload d)))
           <-> In other (load_store d))).
Proof.
  split; [apply update_template_not_found|].
  split.
  - intros U S. apply update_template_not_found.
    apply seed_id_not_stored; assumption.
  - intros I.
    destruct (find_by_id (load_store d) template_id) as [it|] eqn:F.
    2:{ apply find_by_id_none in F. contradiction. }
    destruct (find_by_id_some _ _ _ F) as [_ E].
    exists it, (overwrite ts payload it).
    assert (E' : Template.id (overwrite ts payload it) = template_id) by exact E.
    unfold update_template. rewrite F.
    cbn [save_store fst snd os_replace dump_tmp open_tmp load_store store_file tmp_file].
    repeat split; auto.
    + apply assign_first_find; assumption.
    + apply assign_first_ids; assumption.
    + apply assign_first_others; assumption.
    + apply assign_first_others; assumption.
Qed.

Lemma update_template_frame_witness :
  update_template NoFault time_2 uuid_b sales_v2_payload sales_disk
  = (NotFound, sales_disk)
  /\ update_template NoFault time_2 "tpl-001" sales_v2_payload sales_disk
     = (NotFound, sales_disk)
  /\ exists it it',
       find_by_id (load_store sales_disk) uuid_a = Some it
       /\ fst (update_template NoFault time_2 uuid_a sales_v2_payload sales_disk)
          = Return it'
       /\ Template.created_at it' = Template.created_at it
       /\ String.leb (Template.updated_at it) (Template.updated_at it') = true.
Proof.
  split; [|split].
  - apply (proj1 (update_template_frame NoFault time_2 uuid_b
                    sales_v2_payload sales_disk)).
    simpl. intros [E|[]]. discriminate E.
  - apply (proj1 (proj2 (update_template_frame NoFault time_2 "tpl-001"
                           sales_v2_payload sales_disk))).
    + split; simpl; repeat constructor. intros [].
    + reflexivity.
  - destruct (proj2 (proj2 (update_template_frame NoFault time_2 uuid_a
                              sales_v2_payload sales_disk)))
      as [it [it' [F [R [_ [_ [_ [T [C [_ [M _]]]]]]]]]]].
    + simpl. left. reflexivity.
    + exists it, it'. repeat split; try assumption.
      rewrite M. simpl in F. inversion F. reflexivity.
Defined.

(** C6 as stated fails: when the clock reads earlier than the stored stamp,
    as after a clock adjustment, Update returns a record whose updated_at is
    below the one it had. *)
Lemma update_can_move_updated_at_back :
  ~ (forall ts template_id payload d it it',
       find_by_id (load_store d) template_id = Some it ->
       fst (update_template NoFault ts template_id payload d) = Return it' ->
       String.leb (Template.updated_at it) (Template.updated_at it') = true).
Proof.
  intros C.
  specialize (C time_0 uuid_a sales_v2_payload sales_disk sales_record
                (overwrite time_0 sales_v2_payload sales_record) eq_refl eq_refl).
  discriminate C.
Qed.

(** ** Delete *)

Lemma filter_other_ids items template_id :
  ~ In template_id (ids items) ->
  filter (fun it => negb (Template.id it =? template_id)) items = items.
Proof.
  induction items as [|x items IH]; simpl; [reflexivity|].
  intros N. destruct (String.eqb_spec (Template.id x) template_id) as [F|F]; simpl.
  - exfalso; apply N; left; exact F.
  - rewrite IH; [reflexivity | intros I; apply N; right; exact I].
Qed.

Lemma filter_removes_id items template_id :
  ~ In template_id
      (ids (filter (fun it => negb (Template.id it =? template_id)) items)).
Proof.
  unfold ids. rewrite in_map_iff. intros [x [E I]].
  apply filter_In in I. destruct I as [_ I].
  rewrite E, String.eqb_refl in I. discriminate.
Qed.

Lemma filter_unique_id items template_id :
  NoDup (ids items) -> In template_id (ids items) ->
  S (length (filter (fun it => negb (Template.id it =? template_id)) items))
  = length items.
Proof.
  induction items as [|x items IH]; simpl; [tauto|].
  intros D I. inversion D as [|? ? N D']; subst.
  destruct (String.eqb_spec (Template.id x) template_id) as [F|F]; simpl.
  - rewrite filter_other_ids; [reflexivity | rewrite <- F; exact N].
  - f_equal. apply IH; [exact D'|]. destruct I as [I|I]; [contradiction | exact I].
Qed.

Lemma delete_template_not_found flt template_id d :
  ~ In template_id (ids (load_store d)) ->
  delete_template flt template_id d = (NotFound, d).
Proof.
  intros N. unfold delete_template.
  rewrite (filter_other_ids _ _ N), Nat.eqb_refl. reflexivity.
Qed.

Lemma delete_template_returns flt template_id d r d' :
  delete_template flt template_id d = (Return r, d') ->
  r = template_id
  /\ In template_id (ids (load_store d))
  /\ load_store d'
     = filter (fun it => negb (Template.id it =? template_id)) (load_store d).
Proof.
  unfold delete_template.
  destruct (Nat.eqb _ _) eqn:L; [discriminate|].
  destruct (save_store flt _ d) as [[u|c m|] d1] eqn:S; try discriminate.
  intros H; inversion H; subst.
  apply save_store_returns in S. destruct S as [_ ->].
  split; [reflexivity|]. split; [|reflexivity].
  destruct (in_dec string_dec r (ids (load_store d))) as [I|N]; [exact I|].
  rewrite (filter_other_ids _ _ N), Nat.eqb_refl in L. discriminate.
Qed.

(** C7: Delete of an id that no stored record has fails with NotFound and
    leaves the disk as it was; so it does for every seed id.  When Delete
    returns, on a store whose ids are pairwise distinct and none a seed id,
    it returns the id, the stored collection is shorter by exactly one, and
    Get of that id on the resulting disk fails with NotFound. *)
Theorem delete_completeness flt template_id d :
  (~ In template_id (ids (load_store d)) ->
   delete_template flt template_id d = (NotFound, d))
  /\
  (unique_ids d -> seed_id template_id = true ->
   delete_template flt template_id d = (NotFound, d))
  /\
  (unique_ids d ->
   forall r d',
     delete_template flt template_id d = (Return r, d') ->
     r = template_id
     /\ S (length (load_store d')) = length (load_store d)
     /\ get_template template_id d' = NotFound)
  /\
  (In template_id (ids (load_store d)) ->
   fst (delete_template NoFault template_id d) = Return template_id).
Proof.
  split; [apply delete_template_not_found|].
  split; [|split].
  - intros U S. apply delete_template_not_found.
    apply seed_id_not_stored; assumption.
  - intros U r d' H.
    apply delete_template_returns in H. destruct H as [-> [I L]].
    split; [reflexivity|]. rewrite L. split.
    + apply filter_unique_id; [exact (proj1 U) | exact I].
    + unfold get_template.
      assert (Sd : seed_id template_id = false).
      { destruct U as [_ U]. rewrite Forall_forall in U. apply U. exact I. }
      rewrite (seed_id_find template_id Sd), L.
      destruct (find_by_id _ template_id) eqn:F; [|reflexivity].
      exfalso. apply (filter_removes_id (load_store d) template_id).
      apply find_by_id_some in F. destruct F as [F1 F2].
      unfold ids. apply in_map_iff. eexists; split; eassumption.
  - intros I. unfold delete_template.
    destruct (Nat.eqb _ _) eqn:L; [|reflexivity].
    exfalso. apply Nat.eqb_eq in L.
    assert (X : ~ In template_id
                  (ids (filter (fun it => negb (Template.id it =? template_id))
                          (load_store d)))) by apply filter_removes_id.
    apply X. clear X.
    assert (Q : forall l : list Template,
              length (filter (fun it => negb (Template.id it =? template_id)) l)
              = length l ->
              filter (fun it => negb (Template.id it =? template_id)) l = l).
    { induction l as [|x l IH]; simpl; [reflexivity|].
      destruct (negb _); simpl; intros Hl.
      - f_equal. apply IH. lia.
      - pose proof (filter_length_le
                      (fun it => negb (Template.id it =? template_id)) l). lia. }
    rewrite (Q _ L). exact I.
Qed.

Lemma delete_completeness_witness :
  delete_template NoFault uuid_b sales_disk = (NotFound, sales_disk)
  /\ delete_template NoFault "tpl-001" sales_disk = (NotFound, sales_disk)
  /\ (S (length (load_store (snd (delete_template NoFault uuid_a sales_disk))))
      = length (load_store sales_disk)
      /\ get_template uuid_a (snd (delete_template NoFault uuid_a sales_disk))
         = NotFound)
  /\ fst (delete_template NoFault uuid_a sales_disk) = Return uuid_a.
Proof.
  assert (U : unique_ids sales_disk)
    by (split; simpl; repeat constructor; intros []).
  split; [|split; [|split]].
  - apply (proj1 (delete_completeness NoFault uuid_b sales_disk)).
    simpl. intros [E|[]]. discriminate E.
  - apply (proj1 (proj2 (delete_completeness NoFault "tpl-001" sales_disk)));
      [exact U | reflexivity].
  - apply (proj1 (proj2 (proj2 (delete_completeness NoFault uuid_a sales_disk)))
             U uuid_a (snd (delete_template NoFault uuid_a sales_disk))).
    reflexivity.
  - apply (proj2 (proj2 (proj2 (delete_completeness NoFault uuid_a sales_disk)))).
    simpl. left. reflexivity.
Defined.

(** ** List *)

Lemma compare_not_gt_trans s1 : forall s2 s3,
  String.compare s1 s2 <> Gt -> String.compare s2 s3 <> Gt ->
  String.compare s1 s3 <> Gt.
Proof.
  induction s1 as [|a s1 IH]; intros [|b s2] [|c s3]; simpl; try congruence.
  unfold Ascii.compare.
  destruct (N.compare_spec (N_of_ascii a) (N_of_ascii b)) as [E1|L1|G1];
    destruct (N.compare_spec (N_of_ascii b) (N_of_ascii c)) as [E2|L2|G2];
    try congruence; intros H1 H2.
  - rewrite E1, E2, N.compare_refl. apply (IH s2 s3); assumption.
  - rewrite E1. apply N.compare_lt_iff in L2. rewrite L2. discriminate.
  - rewrite <- E2. apply N.compare_lt_iff in L1. rewrite L1. discriminate.
  - assert (L : (N_of_ascii a < N_of_ascii c)%N) by lia.
    apply N.compare_lt_iff in L. rewrite L. discriminate.
Qed.

Lemma leb_trans s1 s2 s3 :
  String.leb s1 s2 = true -> String.leb s2 s3 = true -> String.leb s1 s3 = true.
Proof.
  unfold String.leb. intros H1 H2.
  pose proof (compare_not_gt_trans s1 s2 s3) as T.
  destruct (String.compare s1 s2); destruct (String.compare s2 s3);
    destruct (String.compare s1 s3); try reflexivity; try discriminate;
    exfalso; apply T; congruence.
Qed.

Lemma insert_desc_perm x l : Permutation (x :: l) (insert_desc x l).
Proof.
  induction l as [|y l IH]; simpl; [apply Permutation_refl|].
  destruct (String.leb _ _); [apply Permutation_refl|].
  eapply Permutation_trans; [apply perm_swap|]. apply perm_skip. exact IH.
Qed.

Lemma sort_perm l : Permutation l (sort_updated_at_reverse l).
Proof.
  induction l as [|x l IH]; simpl; [constructor|].
  eapply Permutation_trans; [apply perm_skip; exact IH | apply insert_desc_perm].
Qed.

Lemma insert_desc_sorted x l :
  StronglySorted not_later l -> StronglySorted not_later (insert_desc x l).
Proof.
  induction l as [|y l IH]; simpl; intros S.
  - repeat constructor.
  - inversion S as [|? ? S' F]; subst.
    destruct (String.leb (Template.updated_at y) (Template.updated_at x)) eqn:E.
    + constructor; [exact S|]. constructor; [exact E|].
      rewrite Forall_forall in *. intros z I. unfold not_later.
      eapply leb_trans; [apply (F z I) | exact E].
    + constructor; [apply IH; exact S'|].
      rewrite Forall_forall in *. intros z I.
      apply (Permutation_in _ (Permutation_sym (insert_desc_perm x l))) in I.
      destruct I as [<-|I]; [|apply F; exact I].
      unfold not_later.
      destruct (String.leb_total (Template.updated_at y) (Template.updated_at x)) as [T|T];
        [congruence | exact T].
Qed.

Lemma sort_sorted l : StronglySorted not_later (sort_updated_at_reverse l).
Proof.
  induction l as [|x l IH]; simpl; [constructor | apply insert_desc_sorted; exact IH].
Qed.

Lemma insert_desc_stable k x l :
  filter (fun t => Template.updated_at t =? k) (insert_desc x l)
  = filter (fun t => Template.updated_at t =? k) (x :: l).
Proof.
  induction l as [|y l IH]; [reflexivity|].
  simpl insert_desc.
  destruct (String.leb (Template.updated_at y) (Template.updated_at x)) eqn:E;
    [reflexivity|].
  simpl in *. rewrite IH.
  destruct (String.eqb_spec (Template.updated_at x) k) as [X|X];
    destruct (String.eqb_spec (Template.updated_at y) k) as [Y|Y]; try reflexivity.
  exfalso. rewrite X, Y in E.
  destruct (String.leb_total k k) as [T|T]; congruence.
Qed.

Lemma sort_stable k l :
  filter (fun t => Template.updated_at t =? k) (sort_updated_at_reverse l)
  = filter (fun t => Template.updated_at t =? k) l.
Proof.
  induction l as [|x l IH]; [reflexivity|].
  simpl sort_updated_at_reverse. rewrite insert_desc_stable.
  simpl. rewrite IH. reflexivity.
Qed.

Lemma filter_twice {A : Type} (f g : A -> bool) l :
  filter g (filter f l) = filter (fun x => f x && g x) l.
Proof.
  induction l as [|x l IH]; simpl; [reflexivity|].
  destruct (f x); simpl; [destruct (g x)|]; rewrite IH; reflexivity.
Qed.

(** C4: List returns the seed templates followed by the stored ones, cut down
    to the records of the category given (exact match) whose name contains
    the query given (both in lower case), each filter applying only when it
    is given, and sorted by updated_at, latest first: the result holds
    exactly the selected records, each record is followed only by records
    that are not later, and records of equal updated_at keep the order they
    had in the concatenation. *)
Theorem list_templates_spec lower category q d :
  let base :=
    filter (selected lower category q) (MOCK_TEMPLATES ++ load_store d)%list in
  let result := list_templates lower category q d in
  result = sort_updated_at_reverse base
  /\ Permutation base result
  /\ StronglySorted not_later result
  /\ (forall k,
        filter (fun t => Template.updated_at t =? k) result
        = filter (fun t => Template.updated_at t =? k) base)
  /\ (forall t,
        In t result <->
        (In t MOCK_TEMPLATES \/ In t (load_store d))
        /\ (truthy category = true -> Template.category t = text category)
        /\ (truthy q = true ->
            str_in (lower (text q)) (lower (Template.name t)) = true)).
Proof.
  intros base result.
  assert (E : result = sort_updated_at_reverse base).
  { subst result base. unfold list_templates, selected.
    destruct (truthy category), (truthy q); cbv beta iota zeta.
    - rewrite filter_twice. reflexivity.
    - f_equal. apply filter_ext. intros t. rewrite andb_true_r. reflexivity.
    - reflexivity.
    - f_equal. clear. induction (MOCK_TEMPLATES ++ load_store d)%list as [|x l IH];
        simpl; [reflexivity | f_equal; exact IH]. }
  split; [exact E|]. rewrite E.
  split; [apply sort_perm|].
  split; [apply sort_sorted|].
  split; [intros k; apply sort_stable|].
  intros t. split.
  - intros I. apply (Permutation_in _ (Permutation_sym (sort_perm base))) in I.
    subst base. apply filter_In in I. destruct I as [I S].
    apply in_app_or in I. split; [exact I|].
    unfold selected in S. apply andb_true_iff in S. destruct S as [S1 S2].
    split; intros T; rewrite T in *; [apply String.eqb_eq; exact S1 | exact S2].
  - intros [I [C Q]]. apply (Permutation_in _ (sort_perm base)).
    subst base. apply filter_In. split; [apply in_or_app; exact I|].
    unfold selected. apply andb_true_iff. split.
    + destruct (truthy category); [|reflexivity].
      apply String.eqb_eq. apply C. reflexivity.
    + destruct (truthy q); [|reflexivity]. apply Q. reflexivity.
Qed.

Lemma list_templates_spec_witness :
  In sales_record
    (list_templates lower_ascii (Some "Sales") (Some "REPORT") sales_disk).
Proof.
  apply (proj2 (proj2 (proj2 (proj2 (proj2
           (list_templates_spec lower_ascii (Some "Sales") (Some "REPORT") sales_disk))))
           sales_record)).
  split; [right; left; reflexivity|].
  split; intros _; reflexivity.
Defined.

(** Equal stamps: the seed and the stored record keep their order. *)
Example list_keeps_order_of_ties :
  let tied := new_record uuid_b "2025-12-15T14:30:00Z" sales_v2_payload in
  map Template.id
    (list_templates lower_ascii None None
       {| store_file := Some (Array [sales_record; tied]); tmp_file := None |})
  = [uuid_a; "tpl-001"; uuid_b; "tpl-002"; "tpl-003"].
Proof. reflexivity. Qed.

(** ** Unique identifiers *)

Lemma unique_ids_empty : unique_ids empty_disk.
Proof. split; simpl; constructor. Qed.

Lemma ids_app l1 l2 : ids (l1 ++ l2) = (ids l1 ++ ids l2)%list.
Proof. unfold ids. apply map_app. Qed.

Lemma create_template_store_file flt tid ts payload d :
  store_file (snd (create_template flt tid ts payload d)) = store_file d
  \/ load_store (snd (create_template flt tid ts payload d))
     = (load_store d ++ [new_record tid ts payload])%list.
Proof.
  unfold create_template. destruct (duplicate _ _); [left; reflexivity|].
  destruct flt; simpl; auto.
Qed.

Lemma create_template_unique flt tid ts payload d :
  unique_ids d -> fresh tid d ->
  unique_ids (snd (create_template flt tid ts payload d)).
Proof.
  intros [U1 U2] [F1 F2].
  destruct (create_template_store_file flt tid ts payload d) as [E|E].
  - unfold unique_ids. rewrite (load_store_store_file _ _ E). split; assumption.
  - unfold unique_ids. rewrite E, ids_app. simpl. split.
    + apply NoDup_app; [exact U1 | repeat constructor; intros [] |].
      intros a Ia [<-|[]]. exact (F2 Ia).
    + apply Forall_app. split; [exact U2 | repeat constructor; exact F1].
Qed.

Lemma update_template_unique flt ts template_id payload d :
  unique_ids d -> unique_ids (snd (update_template flt ts template_id payload d)).
Proof.
  intros U. unfold update_template.
  destruct (find_by_id _ _) as [it|] eqn:F; [|exact U].
  destruct (find_by_id_some _ _ _ F) as [_ E].
  destruct flt; simpl; try exact U.
  unfold unique_ids.
  change (load_store _) with
    (assign_first (load_store d) template_id (overwrite ts payload it)).
  rewrite assign_first_ids; [exact U | exact E].
Qed.

Lemma delete_template_unique flt template_id d :
  unique_ids d -> unique_ids (snd (delete_template flt template_id d)).
Proof.
  intros [U1 U2]. unfold delete_template.
  destruct (Nat.eqb _ _); [split; assumption|].
  destruct flt; simpl; try (split; assumption).
  unfold unique_ids.
  change (load_store _) with
    (filter (fun it => negb (Template.id it =? template_id)) (load_store d)).
  set (f := fun it => negb (Template.id it =? template_id)).
  clear - U1 U2. induction (load_store d) as [|x l IH]; simpl; [split; constructor|].
  inversion U1 as [|? ? N D]; inversion U2 as [|? ? S F]; subst.
  destruct (IH D F) as [I1 I2].
  destruct (f x); simpl; [|split; assumption].
  split; [|constructor; assumption].
  constructor; [|exact I1].
  intros I. apply N. unfold ids in *. apply in_map_iff in I.
  destruct I as [y [Ey Iy]]. apply filter_In in Iy.
  apply in_map_iff. exists y. tauto.
Qed.

Lemma serve_unique c d :
  unique_ids d ->
  match c with Create _ tid _ _ => fresh tid d | _ => True end ->
  unique_ids (serve c d).
Proof.
  destruct c as [f tid ts payload | f ts template_id payload | f template_id];
    simpl; intros U F.
  - apply create_template_unique; assumption.
  - apply update_template_unique; assumption.
  - apply delete_template_unique; assumption.
Qed.

Lemma serve_all_unique cs : forall d,
  unique_ids d -> fresh_draws cs d -> unique_ids (serve_all cs d).
Proof.
  induction cs as [|c cs IH]; simpl; intros d U F; [exact U|].
  destruct F as [F1 F2]. apply IH; [apply serve_unique; assumption | exact F2].
Qed.

Lemma fresh_draws_firstn n : forall cs d,
  fresh_draws cs d -> fresh_draws (firstn n cs) d.
Proof.
  induction n as [|n IH]; intros [|c cs] d; simpl; auto.
  intros [F1 F2]. split; [exact F1 | apply IH; exact F2].
Qed.

Lemma NoDup_snoc {A : Type} (l : list A) (a : A) :
  NoDup l -> (NoDup (l ++ [a]) <-> ~ In a l).
Proof.
  intros D. split.
  - intros N I. apply NoDup_remove_2 in N. apply N. rewrite app_nil_r. exact I.
  - intros N. apply NoDup_app; [exact D | repeat constructor; intros [] |].
    intros x Ix [<-|[]]. exact (N Ix).
Qed.

(** C9, as amended: [create_template] does not compare the identifier it
    draws with the stored ones.  Take a store whose ids are pairwise distinct
    (the missing file is one) and any sequence of Create, Update and Delete
    calls in which no identifier drawn by [uuid4()] is a stored one or a seed
    one when it is drawn: ids are pairwise distinct after every prefix of the
    sequence.  For a Create that follows and returns [x], ids are pairwise
    distinct afterwards exactly when the identifier drawn was not stored, and
    then no record but [x] has the id of [x]. *)
Theorem id_uniqueness cs d :
  unique_ids d -> fresh_draws cs d ->
  (forall n, NoDup (ids (load_store (serve_all (firstn n cs) d))))
  /\ forall flt tid ts payload x d',
       create_template flt tid ts payload (serve_all cs d) = (Return x, d') ->
       Template.id x = tid
       /\ (NoDup (ids (load_store d'))
           <-> ~ In tid (ids (load_store (serve_all cs d))))
       /\ (~ In tid (ids (load_store (serve_all cs d))) ->
           forall y, In y (load_store d') -> Template.id y = tid -> y = x).
Proof.
  intros U F. split.
  - intros n. apply (serve_all_unique (firstn n cs) d U).
    apply fresh_draws_firstn. exact F.
  - intros flt tid ts payload x d' H.
    pose proof (proj1 (serve_all_unique cs d U F)) as U1.
    apply create_template_returns in H. destruct H as [_ [X D]].
    assert (I : Template.id x = tid) by (subst x; reflexivity).
    assert (L : load_store d' = (load_store (serve_all cs d) ++ [x])%list)
      by (subst d'; reflexivity).
    split; [exact I|]. split.
    + rewrite L, ids_app. simpl. rewrite I. apply NoDup_snoc. exact U1.
    + intros N y Iy Ey. rewrite L in Iy.
      apply in_app_or in Iy. destruct Iy as [Iy|[<-|[]]]; [|reflexivity].
      exfalso. apply N. rewrite <- Ey. unfold ids. apply in_map. exact Iy.
Qed.

Lemma id_uniqueness_witness :
  NoDup (ids (load_store (serve_all (firstn 2 example_calls) empty_disk)))
  /\ NoDup (ids (load_store
                   (snd (create_template NoFault uuid_b time_2 sales_payload
                           (serve_all example_calls empty_disk))))).
Proof.
  assert (F : fresh_draws example_calls empty_disk).
  { simpl. repeat split; try reflexivity; simpl; tauto. }
  destruct (id_uniqueness example_calls empty_disk unique_ids_empty F) as [A B].
  split; [exact (A 2)|].
  destruct (B NoFault uuid_b time_2 sales_payload
              (new_record uuid_b time_2 sales_payload)
              (snd (create_template NoFault uuid_b time_2 sales_payload
                      (serve_all example_calls empty_disk))) eq_refl)
    as [_ [E _]].
  apply E. simpl. intros [X|[]]. discriminate X.
Defined.

(** C9 as stated fails: a Create whose draw repeats a stored identifier
    returns all the same, and the store then holds two records with that
    id. *)
Lemma create_can_repeat_an_id :
  ~ (forall flt tid ts payload d x d',
       NoDup (ids (load_store d)) ->
       create_template flt tid ts payload d = (Return x, d') ->
       ~ In (Template.id x) (ids (load_store d))
       /\ NoDup (ids (load_store d'))).
Proof.
  intros C.
  destruct (C NoFault uuid_a time_2 sales_v2_payload sales_disk
              (new_record uuid_a time_2 sales_v2_payload)
              (snd (create_template NoFault uuid_a time_2 sales_v2_payload sales_disk)))
    as [N _].
  - simpl. repeat constructor. intros [].
  - reflexivity.
  - apply N. simpl. left. reflexivity.
Qed.

(** ** Two concurrent Creates *)

Lemma duplicate_same_key p1 p2 items :
  same_key p1 p2 -> duplicate p1 items = duplicate p2 items.
Proof. intros [N C]. unfold duplicate. rewrite N, C. reflexivity. Qed.

Lemma duplicate_app payload items more :
  duplicate payload (items ++ more)
  = duplicate payload items || duplicate payload more.
Proof. unfold duplicate. apply existsb_app. Qed.

Lemma duplicate_new_record payload tid ts :
  duplicate payload [new_record tid ts payload] = true.
Proof. unfold duplicate. simpl. rewrite !String.eqb_refl. reflexivity. Qed.

Section TwoCreatesFacts.

Variable calls : thread -> create_call.
Variable d0 : disk.
Hypothesis same : same_key (c_payload (calls T1)) (c_payload (calls T2)).

Lemma taken_thread t d :
  duplicate (c_payload (calls t)) (load_store d) = taken calls d.
Proof.
  destruct t; [reflexivity|]. symmetry. apply duplicate_same_key. exact same.
Qed.

Lemma taken_saved t d' items tid ts :
  load_store d' = (items ++ [new_record tid ts (c_payload (calls t))])%list ->
  taken calls d' = true.
Proof.
  intros E. rewrite <- (taken_thread t). rewrite E, duplicate_app.
  rewrite duplicate_new_record. apply orb_true_r.
Qed.

(** A thread outside the block keeps its invariant when the other thread
    writes, as long as a taken key stays taken. *)
Lemma pc_ok_outside t d d' p :
  in_block p = false ->
  (taken calls d = true -> taken calls d' = true) ->
  pc_ok calls d0 t d p -> pc_ok calls d0 t d' p.
Proof.
  destruct p as [| |items|items record|r|r]; simpl; try discriminate; auto.
  intros _ M. destruct r; simpl; intuition.
Qed.

Lemma inv_start : inv calls d0 (start d0).
Proof. constructor; simpl; auto. Qed.

Lemma taken_store_file d d' :
  store_file d' = store_file d -> taken calls d' = taken calls d.
Proof. intros E. unfold taken. rewrite (load_store_store_file _ _ E). reflexivity. Qed.

Lemma save_store_taken t d record :
  record = new_record (c_tid (calls t)) (c_ts (calls t)) (c_payload (calls t)) ->
  (c_flt (calls t) = NoFault
   /\ save_store (c_flt (calls t)) (load_store d ++ [record]) d
      = (Return tt, os_replace (dump_tmp (load_store d ++ [record]) (open_tmp d)))
   /\ taken calls (os_replace (dump_tmp (load_store d ++ [record]) (open_tmp d))) = true)
  \/ (c_flt (calls t) <> NoFault
      /\ exists d', save_store (c_flt (calls t)) (load_store d ++ [record]) d = (OSError, d')
                    /\ taken calls d' = taken calls d).
Proof.
  intros R. destruct (c_flt (calls t)) eqn:F; simpl.
  - left. split; [reflexivity|]. split; [reflexivity|].
    apply (taken_saved t _ (load_store d) (c_tid (calls t)) (c_ts (calls t))).
    subst record. reflexivity.
  - right. split; [discriminate|]. eexists; split; [reflexivity|].
    apply taken_store_file; reflexivity.
  - right. split; [discriminate|]. eexists; split; [reflexivity|].
    apply taken_store_file; reflexivity.
  - right. split; [discriminate|]. eexists; split; [reflexivity|].
    apply taken_store_file; reflexivity.
Qed.

Ltac close_inv :=
  constructor; simpl in *;
  rewrite ?orb_true_r, ?orb_false_r, ?andb_true_r, ?andb_false_r in *;
  auto; try congruence; try (intuition (auto; congruence)).

Lemma inv_step s t s' :
  inv calls d0 s -> step calls t s = Some s' -> inv calls d0 s'.
Proof.
  intros [Il Ie Im Io I1 In P1 P2] H.
  destruct s as [d l p1 p2]. simpl in *. unfold step in H.
  destruct t; simpl in H.
  - destruct p1 as [| |items|items record|r|r].
    + destruct l; [discriminate|]. inversion H; subst; clear H. close_inv.
    + inversion H; subst; clear H. close_inv.
    + simpl in P1. subst items. rewrite (taken_thread T1) in H.
      destruct (taken calls d) eqn:Tk; inversion H; subst; clear H; close_inv.
    + simpl in P1. destruct P1 as [Ei [Er Tk]]. subst items.
      simpl in Ie.
      destruct (save_store_taken T1 d record Er) as [[Fl [Sv Tn]]|[Fl [d' [Sv Tn]]]];
        rewrite Sv in H; inversion H; subst s'; clear H.
      * constructor; simpl; auto.
        -- destruct p2 as [| |?|? ?|[]|[]]; simpl in *;
             try reflexivity; try discriminate; intuition congruence.
        -- intros X. apply Im in X. congruence.
        -- apply (pc_ok_outside T2 d); auto.
      * simpl in Io. constructor; simpl; auto.
        -- rewrite Tn. exact Im.
        -- rewrite Tn. exact Io.
        -- split; [exact Fl|]. destruct (taken calls d0); [|reflexivity].
           specialize (Im eq_refl). congruence.
        -- apply (pc_ok_outside T2 d); auto. rewrite Tn. auto.
    + inversion H; subst; clear H. close_inv.
    + discriminate.
  - destruct p2 as [| |items|items record|r|r].
    + destruct l; [discriminate|]. inversion H; subst; clear H. close_inv.
    + inversion H; subst; clear H. close_inv.
    + simpl in P2. subst items. rewrite (taken_thread T2) in H.
      destruct (taken calls d) eqn:Tk; inversion H; subst; clear H; close_inv.
    + simpl in P2. destruct P2 as [Ei [Er Tk]]. subst items.
      rewrite andb_comm in Ie. simpl in Ie.
      destruct (save_store_taken T2 d record Er) as [[Fl [Sv Tn]]|[Fl [d' [Sv Tn]]]];
        rewrite Sv in H; inversion H; subst s'; clear H.
      * constructor; simpl; auto.
        -- rewrite andb_true_r; exact Ie.
        -- intros _. right. apply orb_true_r.
        -- rewrite andb_true_r.
           destruct p1 as [| |?|? ?|[]|[]]; simpl in *;
             try reflexivity; try discriminate; intuition congruence.
        -- intros X. apply Im in X. congruence.
        -- apply (pc_ok_outside T1 d); auto.
      * rewrite orb_false_r in Io, In.
        constructor; simpl; auto.
        -- rewrite andb_true_r; exact Ie.
        -- rewrite Tn. exact Im.
        -- rewrite Tn, orb_false_r. exact Io.
        -- rewrite orb_false_r. exact In.
        -- apply (pc_ok_outside T1 d); auto. rewrite Tn. auto.
        -- split; [exact Fl|]. destruct (taken calls d0); [|reflexivity].
           specialize (Im eq_refl). congruence.
    + inversion H; subst; clear H. close_inv.
    + discriminate.
Qed.

End TwoCreatesFacts.

Section TwoCreatesRuns.

Variable calls : thread -> create_call.
Hypothesis same : same_key (c_payload (calls T1)) (c_payload (calls T2)).

Lemma inv_reaches d0 s : reaches calls (start d0) s -> inv calls d0 s.
Proof.
  induction 1 as [|s t s' R IH H].
  - apply inv_start.
  - apply (inv_step calls d0 same s t s' IH H).
Qed.

Lemma reaches_trans s0 s s' :
  reaches calls s0 s -> reaches calls s s' -> reaches calls s0 s'.
Proof.
  intros R0 R. induction R as [|s1 t s2 R IH H]; [exact R0|].
  eapply reaches_step; eassumption.
Qed.

Lemma run_reaches sched : forall s, reaches calls s (run calls sched s).
Proof.
  induction sched as [|t sched IH]; simpl; intros s; [constructor|].
  destruct (step calls t s) as [s'|] eqn:H; [|apply IH].
  eapply reaches_trans; [|apply IH].
  eapply reaches_step; [constructor | exact H].
Qed.

Lemma step_decreases t s s' :
  step calls t s = Some s' ->
  (steps_left (at1 s') + steps_left (at2 s') < steps_left (at1 s) + steps_left (at2 s))%nat.
Proof.
  destruct s as [d l p1 p2]. unfold step.
  destruct t; simpl.
  - destruct p1 as [| |items|items record|r|r]; simpl.
    + destruct l; [discriminate|]. intros H; inversion H; simpl; lia.
    + intros H; inversion H; simpl; lia.
    + destruct (duplicate _ _); intros H; inversion H; simpl; lia.
    + destruct (save_store _ _ _) as [[u|c m|] d']; intros H; inversion H; simpl; lia.
    + intros H; inversion H; simpl; lia.
    + discriminate.
  - destruct p2 as [| |items|items record|r|r]; simpl.
    + destruct l; [discriminate|]. intros H; inversion H; simpl; lia.
    + intros H; inversion H; simpl; lia.
    + destruct (duplicate _ _); intros H; inversion H; simpl; lia.
    + destruct (save_store _ _ _) as [[u|c m|] d']; intros H; inversion H; simpl; lia.
    + intros H; inversion H; simpl; lia.
    + discriminate.
Qed.

Lemma step_in_block t s :
  in_block (at_thread t s) = true -> exists s', step calls t s = Some s'.
Proof.
  unfold step. destruct (at_thread t s) as [| |items|items record|r|r]; simpl;
    try discriminate; intros _.
  - eexists; reflexivity.
  - destruct (duplicate _ _); eexists; reflexivity.
  - destruct (save_store _ _ _) as [[u|c m|] d']; eexists; reflexivity.
  - eexists; reflexivity.
Qed.

(** No deadlock: while a call is unfinished, some thread can move. *)
Lemma inv_progress d0 s :
  inv calls d0 s ->
  (0 < steps_left (at1 s) + steps_left (at2 s))%nat ->
  exists t s', step calls t s = Some s'.
Proof.
  intros I L.
  destruct (in_block (at1 s)) eqn:B1.
  { destruct (step_in_block T1 s B1) as [s' H]. exists T1, s'. exact H. }
  destruct (in_block (at2 s)) eqn:B2.
  { destruct (step_in_block T2 s B2) as [s' H]. exists T2, s'. exact H. }
  pose proof (inv_lock _ _ _ I) as Lk. rewrite B1, B2 in Lk. simpl in Lk.
  destruct (at1 s) as [| |?|? ?|?|?] eqn:A1; simpl in B1; try discriminate.
  - exists T1. unfold step. simpl. rewrite A1, Lk. eexists; reflexivity.
  - destruct (at2 s) as [| |?|? ?|?|?] eqn:A2; simpl in B2; try discriminate.
    + exists T2. unfold step. simpl. rewrite A2, Lk. eexists; reflexivity.
    + simpl in L. lia.
Qed.

Lemma inv_completes d0 n : forall s,
  inv calls d0 s ->
  (steps_left (at1 s) + steps_left (at2 s) <= n)%nat ->
  exists s' r1 r2, reaches calls s s' /\ both_finished s' r1 r2.
Proof.
  induction n as [|n IH]; intros s I L.
  - exists s. destruct (at1 s) eqn:A1; simpl in L; try lia.
    destruct (at2 s) eqn:A2; simpl in L; try lia.
    eexists _, _. split; [constructor | split; eassumption].
  - destruct (Nat.eq_dec (steps_left (at1 s) + steps_left (at2 s)) 0) as [Z|Z].
    + apply IH; [exact I | lia].
    + destruct (inv_progress d0 s I) as [t [s1 H]]; [lia|].
      pose proof (step_decreases t s s1 H) as D.
      destruct (IH s1 (inv_step calls d0 same s t s1 I H)) as [s' [r1 [r2 [R B]]]]; [lia|].
      exists s', r1, r2. split; [|exact B].
      eapply reaches_trans; [|exact R].
      eapply reaches_step; [constructor | exact H].
Qed.

End TwoCreatesRuns.

(** C1, as amended: two concurrent Creates with the same (name, category)
    never both succeed, wherever the scheduler switches between them: the
    lock lets one thread at a time run the block from [load_store] to
    [save_store], and both calls can always run to their end.  When no stored
    record has the pair to begin with and the operating system refuses no
    write, exactly one call returns its record and the other raises
    Conflict; when a stored record has the pair already, both raise
    Conflict. *)
Theorem concurrent_create_safety calls d s :
  same_key (c_payload (calls T1)) (c_payload (calls T2)) ->
  reaches calls (start d) s ->
  in_block (at1 s) && in_block (at2 s) = false
  /\ (exists s' r1 r2, reaches calls s s' /\ both_finished s' r1 r2)
  /\ forall r1 r2,
       both_finished s r1 r2 ->
       succeeded r1 && succeeded r2 = false
       /\ (duplicate (c_payload (calls T1)) (load_store d) = true ->
           r1 = Conflict /\ r2 = Conflict)
       /\ (duplicate (c_payload (calls T1)) (load_store d) = false ->
           c_flt (calls T1) = NoFault -> c_flt (calls T2) = NoFault ->
           (r1 = Return (new_record (c_tid (calls T1)) (c_ts (calls T1))
                           (c_payload (calls T1)))
            /\ r2 = Conflict)
           \/ (r1 = Conflict
               /\ r2 = Return (new_record (c_tid (calls T2)) (c_ts (calls T2))
                                 (c_payload (calls T2))))).
Proof.
  intros K R. pose proof (inv_reaches calls K d s R) as I.
  split; [exact (inv_excl _ _ _ I)|].
  split; [exact (inv_completes calls K d _ s I (le_n _))|].
  intros r1 r2 [A1 A2].
  destruct I as [_ _ Im Io I1 In P1 P2].
  rewrite A1, A2 in *. simpl in P1, P2. fold (taken calls d) in *.
  split; [|split].
  - destruct r1, r2; simpl in *; auto.
  - intros T. specialize (In T).
    destruct r1 as [x1|c1 m1|]; destruct r2 as [x2|c2 m2|]; simpl in *;
      try discriminate; intuition congruence.
  - intros T F1 F2.
    destruct r1 as [x1|c1 m1|]; destruct r2 as [x2|c2 m2|]; simpl in *;
      try discriminate; try (exfalso; tauto).
    + left. destruct P1 as [-> _]. destruct P2 as [-> _]. split; reflexivity.
    + right. destruct P1 as [-> _]. destruct P2 as [-> _]. split; reflexivity.
    + exfalso. destruct P1 as [_ Tk]. destruct (Io Tk); congruence.
Qed.

Lemma concurrent_create_safety_witness :
  (at1 (run example_race example_schedule (start empty_disk))
   = Finished (Return (new_record uuid_b time_2 sales_payload))
   /\ at2 (run example_race example_schedule (start empty_disk))
      = Finished Conflict)
  /\ (Return (new_record uuid_b time_2 sales_payload)
      = Return (new_record (c_tid (example_race T1)) (c_ts (example_race T1))
                  (c_payload (example_race T1)))
      /\ @Conflict Template = Conflict
      \/ Return (new_record uuid_b time_2 sales_payload) = Conflict
         /\ @Conflict Template
            = Return (new_record (c_tid (example_race T2)) (c_ts (example_race T2))
                        (c_payload (example_race T2))))
  /\ (at1 (run example_race example_schedule (start sales_disk)) = Finished Conflict
      /\ at2 (run example_race example_schedule (start sales_disk)) = Finished Conflict)
  /\ (@Conflict Template = Conflict /\ @Conflict Template = Conflict).
Proof.
  assert (K : same_key (c_payload (example_race T1)) (c_payload (example_race T2)))
    by (split; reflexivity).
  assert (B1 : both_finished (run example_race example_schedule (start empty_disk))
                 (Return (new_record uuid_b time_2 sales_payload)) Conflict)
    by (split; reflexivity).
  assert (B2 : both_finished (run example_race example_schedule (start sales_disk))
                 Conflict Conflict)
    by (split; reflexivity).
  split; [exact B1|]. split; [|split; [exact B2|]].
  - destruct (concurrent_create_safety example_race empty_disk _ K
                (run_reaches example_race example_schedule (start empty_disk)))
      as [_ [_ H]].
    destruct (H _ _ B1) as [_ [_ E]].
    apply E; reflexivity.
  - destruct (concurrent_create_safety example_race sales_disk _ K
                (run_reaches example_race example_schedule (start sales_disk)))
      as [_ [_ H]].
    destruct (H _ _ B2) as [_ [D _]].
    apply D; reflexivity.
Defined.

(** C1 as stated fails: when a stored record has the pair already, the two
    calls both raise Conflict and neither succeeds. *)
Lemma concurrent_create_both_conflict :
  ~ (forall calls d s r1 r2,
       same_key (c_payload (calls T1)) (c_payload (calls T2)) ->
       reaches calls (start d) s ->
       both_finished s r1 r2 ->
       one_success_one_conflict r1 r2).
Proof.
  intros C.
  assert (X : one_success_one_conflict (@Conflict Template) (@Conflict Template)).
  { apply (C example_race sales_disk
             (run example_race example_schedule (start sales_disk))).
    - split; reflexivity.
    - apply run_reaches.
    - split; reflexivity. }
  destruct X as [[S _]|[_ S]]; discriminate S.
Qed.

(** * Further properties of the handlers *)

(** ** Get *)

Lemma find_by_id_first l1 it l2 :
  ~ In (Template.id it) (ids l1) ->
  find_by_id (l1 ++ it :: l2) (Template.id it) = Some it.
Proof.
  induction l1 as [|x l1 IH]; simpl; intros N.
  - rewrite String.eqb_refl. reflexivity.
  - destruct (String.eqb_spec (Template.id x) (Template.id it)) as [E|E].
    + exfalso. apply N. left. exact E.
    + apply IH. intros I. apply N. right. exact I.
Qed.

Lemma find_by_id_unique items it :
  NoDup (ids items) -> In it items ->
  find_by_id items (Template.id it) = Some it.
Proof.
  induction items as [|x items IH]; simpl; [tauto|].
  intros D [->|I].
  - rewrite String.eqb_refl. reflexivity.
  - inversion D as [|? ? N D']; subst.
    destruct (String.eqb_spec (Template.id x) (Template.id it)) as [E|E].
    + exfalso. apply N. rewrite E. unfold ids. apply in_map. exact I.
    + apply IH; assumption.
Qed.

Lemma find_by_id_split items template_id :
  match find_by_id items template_id with
  | Some it =>
      exists l1 l2,
        items = (l1 ++ it :: l2)%list
        /\ Template.id it = template_id
        /\ ~ In template_id (ids l1)
  | None => ~ In template_id (ids items)
  end.
Proof.
  induction items as [|x items IH]; simpl; [tauto|].
  destruct (String.eqb_spec (Template.id x) template_id) as [E|E].
  - exists [], items. simpl. auto.
  - destruct (find_by_id items template_id) as [it|].
    + destruct IH as [l1 [l2 [A [B C]]]].
      exists (x :: l1), l2. simpl. rewrite A. split; [reflexivity|].
      split; [exact B|]. intros [F|F]; [exact (E F) | exact (C F)].
    + intros [F|F]; [exact (E F) | exact (IH F)].
Qed.

(** X1: [find_by_id] returns the first record with the id: the records before it
    have other ids, and a record with the id that no record with the id
    precedes is the one returned; it returns nothing exactly when no record
    has the id. *)
Theorem find_by_id_first_match items template_id :
  match find_by_id items template_id with
  | Some it =>
      exists l1 l2,
        items = (l1 ++ it :: l2)%list
        /\ Template.id it = template_id
        /\ ~ In template_id (ids l1)
  | None => ~ In template_id (ids items)
  end
  /\ (forall l1 it l2,
        items = (l1 ++ it :: l2)%list ->
        Template.id it = template_id ->
        ~ In template_id (ids l1) ->
        find_by_id items template_id = Some it).
Proof.
  split; [apply find_by_id_split|].
  intros l1 it l2 -> <- N. apply find_by_id_first. exact N.
Qed.

Lemma find_by_id_first_match_witness :
  find_by_id (load_store two_disk) uuid_b
  = Some (new_record uuid_b time_2 sales_v2_payload).
Proof.
  apply (proj2 (find_by_id_first_match (load_store two_disk) uuid_b)
           [sales_record] (new_record uuid_b time_2 sales_v2_payload) []).
  - reflexivity.
  - reflexivity.
  - simpl. intros [E|[]]. discriminate E.
Defined.

Lemma seed_id_find_some template_id :
  seed_id template_id = true ->
  exists tpl,
    find (fun tpl => Template.id tpl =? template_id) MOCK_TEMPLATES = Some tpl
    /\ In tpl MOCK_TEMPLATES /\ Template.id tpl = template_id.
Proof.
  unfold seed_id. intros H.
  destruct (find (fun tpl => Template.id tpl =? template_id) MOCK_TEMPLATES)
    as [tpl|] eqn:F.
  - destruct (find_some _ _ F) as [I E]. apply String.eqb_eq in E.
    exists tpl. auto.
  - apply existsb_exists in H. destruct H as [tpl [I E]].
    rewrite (find_none _ _ F tpl I) in E. discriminate.
Qed.

Lemma list_templates_in lower category q d t :
  In t (list_templates lower category q d) ->
  In t MOCK_TEMPLATES \/ In t (load_store d).
Proof.
  unfold list_templates. intros I.
  apply (Permutation_in _ (Permutation_sym (sort_perm _))) in I.
  destruct (truthy q); [apply filter_In in I; destruct I as [I _]|];
    (destruct (truthy category); [apply filter_In in I; destruct I as [I _]|]);
    apply in_app_or; exact I.
Qed.

(** X2: A seed id is answered from [MOCK_TEMPLATES] alone: Get returns the seed
    whatever the store file holds, also when a stored record has that id. *)
Theorem get_template_seed_first template_id :
  seed_id template_id = true ->
  exists tpl,
    In tpl MOCK_TEMPLATES
    /\ Template.id tpl = template_id
    /\ forall d, get_template template_id d = Return tpl.
Proof.
  intros H. destruct (seed_id_find_some template_id H) as [tpl [F [I E]]].
  exists tpl. split; [exact I|]. split; [exact E|].
  intros d. unfold get_template. rewrite F. reflexivity.
Qed.

Lemma get_template_seed_first_witness :
  exists tpl,
    In tpl MOCK_TEMPLATES
    /\ Template.id tpl = "tpl-002"
    /\ forall d, get_template "tpl-002" d = Return tpl.
Proof. apply (get_template_seed_first "tpl-002"). reflexivity. Defined.

(** X3: Get raises NotFound exactly when the id is no seed id and no stored
    record has it; a record it returns has the id asked for and is a seed or
    a stored record. *)
Theorem get_template_found template_id d :
  (get_template template_id d = NotFound
   <-> seed_id template_id = false /\ ~ In template_id (ids (load_store d)))
  /\ (forall it,
        get_template template_id d = Return it ->
        Template.id it = template_id
        /\ (In it MOCK_TEMPLATES \/ In it (load_store d))).
Proof.
  unfold get_template.
  destruct (seed_id template_id) eqn:S.
  - destruct (seed_id_find_some template_id S) as [tpl [F [I E]]].
    rewrite F. split.
    + split; [discriminate | intros [X _]; discriminate X].
    + intros it H. inversion H; subst. auto.
  - rewrite (seed_id_find template_id S).
    destruct (find_by_id (load_store d) template_id) as [it|] eqn:F.
    + split.
      * split; [discriminate|]. intros [_ N].
        apply find_by_id_none in N. congruence.
      * intros it' H. inversion H; subst.
        destruct (find_by_id_some _ _ _ F) as [I E]. auto.
    + split.
      * split; [|reflexivity]. intros _. split; [reflexivity|].
        apply find_by_id_none. exact F.
      * intros it H. discriminate H.
Qed.

Lemma get_template_found_witness :
  get_template uuid_b sales_disk = NotFound
  /\ Template.id sales_record = uuid_a.
Proof.
  destruct (get_template_found uuid_b sales_disk) as [[_ A] _].
  destruct (get_template_found uuid_a sales_disk) as [_ B].
  split.
  - apply A. split; [reflexivity|]. simpl. intros [E|[]]. discriminate E.
  - apply (B sales_record). reflexivity.
Defined.

(** X4: Every record that List returns, under any filters, is the record Get
    returns for its id, on a store whose ids are pairwise distinct and none
    a seed id. *)
Theorem list_then_get lower category q d t :
  unique_ids d ->
  In t (list_templates lower category q d) ->
  get_template (Template.id t) d = Return t.
Proof.
  intros [U1 U2] I.
  destruct (list_templates_in lower category q d t I) as [I'|I']; clear I;
    rename I' into I.
  - unfold get_template. simpl in I.
    destruct I as [<-|[<-|[<-|[]]]]; reflexivity.
  - assert (S : seed_id (Template.id t) = false).
    { rewrite Forall_forall in U2. apply U2. unfold ids. apply in_map. exact I. }
    unfold get_template. rewrite (seed_id_find _ S).
    rewrite (find_by_id_unique _ _ U1 I). reflexivity.
Qed.

Lemma list_then_get_witness :
  get_template (Template.id sales_record) sales_disk = Return sales_record.
Proof.
  apply (list_then_get lower_ascii (Some "Sales") None sales_disk sales_record).
  - split; simpl; repeat constructor. intros [].
  - simpl. left. reflexivity.
Defined.

(** ** How the handlers compose *)

Lemma update_template_found flt ts template_id payload d it :
  find_by_id (load_store d) template_id = Some it ->
  update_template flt ts template_id payload d
  = match flt with
    | NoFault =>
        (Return (overwrite ts payload it),
         os_replace
           (dump_tmp (assign_first (load_store d) template_id (overwrite ts payload it))
              (open_tmp d)))
    | _ =>
        (OSError,
         snd (save_store flt
                (assign_first (load_store d) template_id (overwrite ts payload it)) d))
    end.
Proof.
  intros F. unfold update_template. rewrite F. destruct flt; reflexivity.
Qed.

(** X5: After an Update that found its record, Get of the id returns the updated
    record, when the id is no seed id. *)
Theorem update_then_get ts template_id payload d it :
  seed_id template_id = false ->
  find_by_id (load_store d) template_id = Some it ->
  fst (update_template NoFault ts template_id payload d)
  = Return (overwrite ts payload it)
  /\ get_template template_id (snd (update_template NoFault ts template_id payload d))
     = Return (overwrite ts payload it).
Proof.
  intros S F. rewrite (update_template_found NoFault ts template_id payload d it F).
  split; [reflexivity|].
  destruct (find_by_id_some _ _ _ F) as [I E].
  unfold get_template. rewrite (seed_id_find _ S).
  cbn [snd os_replace dump_tmp open_tmp load_store store_file tmp_file].
  rewrite assign_first_find; [reflexivity | exact E |].
  rewrite <- E. unfold ids. apply in_map. exact I.
Qed.

Lemma update_then_get_witness :
  fst (update_template NoFault time_2 uuid_a sales_v2_payload sales_disk)
  = Return (overwrite time_2 sales_v2_payload sales_record)
  /\ get_template uuid_a
       (snd (update_template NoFault time_2 uuid_a sales_v2_payload sales_disk))
     = Return (overwrite time_2 sales_v2_payload sales_record).
Proof.
  apply (update_then_get time_2 uuid_a sales_v2_payload sales_disk sales_record);
    reflexivity.
Defined.

Lemma duplicate_keys payload items :
  duplicate payload items = true
  <-> In (TemplateCreate.name payload, TemplateCreate.category payload)
        (map key_of items).
Proof.
  rewrite duplicate_true, in_map_iff. split.
  - intros [it [I [N C]]]. exists it. unfold key_of. rewrite N, C. auto.
  - intros [it [E I]]. exists it. unfold key_of in E. inversion E. auto.
Qed.

(** X6: Update makes no duplicate check: it returns also when another stored
    record has the payload's (name, category), and the store then holds two
    records with that pair; after any Update that returned, a Create with
    that (name, category) raises Conflict. *)
Theorem update_makes_no_duplicate_check ts template_id payload d :
  In template_id (ids (load_store d)) ->
  verdict_of (fst (update_template NoFault ts template_id payload d)) = Returned
  /\ (forall flt tid' ts' payload',
        same_key payload payload' ->
        create_template flt tid' ts' payload'
          (snd (update_template NoFault ts template_id payload d))
        = (Conflict, snd (update_template NoFault ts template_id payload d)))
  /\ (forall other,
        In other (load_store d) ->
        Template.id other <> template_id ->
        Template.name other = TemplateCreate.name payload ->
        Template.category other = TemplateCreate.category payload ->
        ~ unique_keys (snd (update_template NoFault ts template_id payload d))).
Proof.
  intros I.
  destruct (find_by_id (load_store d) template_id) as [it|] eqn:F.
  2:{ apply find_by_id_none in F. contradiction. }
  destruct (find_by_id_some _ _ _ F) as [_ E].
  rewrite (update_template_found NoFault ts template_id payload d it F).
  cbn [fst snd]. split; [reflexivity|].
  set (it' := overwrite ts payload it).
  set (d' := os_replace _).
  assert (L : load_store d' = assign_first (load_store d) template_id it')
    by reflexivity.
  assert (Fi : find_by_id (load_store d') template_id = Some it')
    by (rewrite L; apply assign_first_find; assumption).
  pose proof (find_by_id_split (load_store d') template_id) as H.
  rewrite Fi in H. destruct H as [l1 [l2 [A [_ N]]]].
  split.
  - intros flt tid' ts' payload' K.
    assert (D : duplicate payload' (load_store d') = true).
    { rewrite <- (duplicate_same_key payload payload' _ K).
      apply duplicate_true. exists it'. rewrite A.
      split; [apply in_or_app; right; left; reflexivity | split; reflexivity]. }
    unfold create_template. rewrite D. reflexivity.
  - intros other Io Ne Na Ca U. unfold unique_keys in U.
    assert (Io' : In other (load_store d'))
      by (rewrite L; apply assign_first_others; assumption).
    rewrite A in U, Io'. rewrite map_app in U. simpl in U.
    apply NoDup_remove_2 in U. apply U.
    assert (K : key_of it' = key_of other)
      by (unfold key_of; simpl; rewrite Na, Ca; reflexivity).
    rewrite K. rewrite <- map_app. apply in_map.
    apply in_app_or in Io'. apply in_or_app.
    destruct Io' as [X|[X|X]]; auto.
    exfalso. apply Ne. rewrite <- X. exact E.
Qed.

Lemma update_makes_no_duplicate_check_witness :
  create_template NoFault uuid_b time_2 sales_v2_payload
    (snd (update_template NoFault time_2 uuid_a sales_v2_payload sales_disk))
  = (Conflict, snd (update_template NoFault time_2 uuid_a sales_v2_payload sales_disk))
  /\ ~ unique_keys (snd (update_template NoFault time_2 uuid_b sales_payload two_disk)).
Proof.
  split.
  - apply (proj1 (proj2 (update_makes_no_duplicate_check time_2 uuid_a
                           sales_v2_payload sales_disk (or_introl eq_refl)))).
    split; reflexivity.
  - apply (proj2 (proj2 (update_makes_no_duplicate_check time_2 uuid_b
                           sales_payload two_disk (or_intror (or_introl eq_refl))))
             sales_record).
    + left. reflexivity.
    + discriminate.
    + reflexivity.
    + reflexivity.
Defined.

(** X7: A Create that returned, followed by a Delete of the id it drew, leaves
    the stored collection as it was before the two calls (the id drawn was
    not stored before). *)
Theorem create_then_delete tid ts payload d :
  ~ In tid (ids (load_store d)) ->
  duplicate payload (load_store d) = false ->
  fst (create_template NoFault tid ts payload d) = Return (new_record tid ts payload)
  /\ fst (delete_template NoFault tid (snd (create_template NoFault tid ts payload d)))
     = Return tid
  /\ load_store
       (snd (delete_template NoFault tid (snd (create_template NoFault tid ts payload d))))
     = load_store d.
Proof.
  intros N D. unfold create_template. rewrite D.
  cbn [save_store fst snd]. split; [reflexivity|].
  unfold delete_template.
  cbn [os_replace dump_tmp open_tmp load_store store_file tmp_file].
  rewrite filter_app, (filter_other_ids _ _ N). simpl.
  rewrite String.eqb_refl. simpl. rewrite app_nil_r, length_app. simpl.
  destruct (Nat.eqb_spec (length (load_store d)) (length (load_store d) + 1));
    [lia|]. split; reflexivity.
Qed.

Lemma create_then_delete_witness :
  load_store
    (snd (delete_template NoFault uuid_b
            (snd (create_template NoFault uuid_b time_2 sales_v2_payload sales_disk))))
  = load_store sales_disk.
Proof.
  apply (create_then_delete uuid_b time_2 sales_v2_payload sales_disk).
  - simpl. intros [E|[]]. discriminate E.
  - reflexivity.
Defined.

(** X8: Delete removes every record with the id: after a Delete that returned, a
    second Delete of the same id raises NotFound and leaves the disk as the
    first one left it. *)
Theorem delete_twice flt flt' template_id d r d' :
  delete_template flt template_id d = (Return r, d') ->
  delete_template flt' template_id d' = (NotFound, d').
Proof.
  intros H. apply delete_template_returns in H. destruct H as [_ [_ L]].
  apply delete_template_not_found. rewrite L. apply filter_removes_id.
Qed.

Lemma delete_twice_witness :
  delete_template NoFault uuid_a (snd (delete_template NoFault uuid_a sales_disk))
  = (NotFound, snd (delete_template NoFault uuid_a sales_disk)).
Proof.
  apply (delete_twice NoFault NoFault uuid_a sales_disk uuid_a). reflexivity.
Defined.

(** ** What a call leaves on the disk *)

Lemma save_store_effect flt items d :
  match flt with
  | NoFault =>
      save_store flt items d
      = (Return tt, {| store_file := Some (Array items); tmp_file := None |})
  | _ =>
      fst (save_store flt items d) = OSError
      /\ store_file (snd (save_store flt items d)) = store_file d
  end.
Proof. destruct flt; simpl; auto. Qed.

(** X9: The answer of a mutating call tells what it did to the disk.  A call
    that returned had no write refused and left a complete array and no
    sibling file.  A call that raised an HTTP error (409 from Create, 404
    from Update and Delete, nothing else) wrote nothing at all.  A call that
    let an [OSError] escape had a write refused and left the store file as it
    was, so List and Get answer as before. *)
Theorem call_effects c d :
  match answer c d with
  | Returned =>
      fault_of c = NoFault
      /\ tmp_file (serve c d) = None
      /\ exists items, store_file (serve c d) = Some (Array items)
  | Refused status_code =>
      serve c d = d
      /\ status_code = match c with Create _ _ _ _ => 409%Z | _ => 404%Z end
  | Failed =>
      fault_of c <> NoFault
      /\ store_file (serve c d) = store_file d
      /\ (forall lower category q,
            list_templates lower category q (serve c d)
            = list_templates lower category q d)
      /\ (forall template_id,
            get_template template_id (serve c d) = get_template template_id d)
  end.
Proof.
  assert (R : forall d', store_file d' = store_file d ->
                (forall lower category q,
                   list_templates lower category q d'
                   = list_templates lower category q d)
                /\ (forall template_id,
                      get_template template_id d' = get_template template_id d)).
  { intros d' E. split; intros; unfold list_templates, get_template;
      rewrite (load_store_store_file _ _ E); reflexivity. }
  destruct c as [f tid ts payload | f ts template_id payload | f template_id];
    unfold answer, serve, fault_of.
  - unfold create_template. destruct (duplicate _ _); [simpl; auto|].
    destruct f; simpl; repeat split; eauto; try discriminate; apply R; reflexivity.
  - unfold update_template. destruct (find_by_id _ _); [|simpl; auto].
    destruct f; simpl; repeat split; eauto; try discriminate; apply R; reflexivity.
  - unfold delete_template. destruct (Nat.eqb _ _); [simpl; auto|].
    destruct f; simpl; repeat split; eauto; try discriminate; apply R; reflexivity.
Qed.

(** ** Invariants of the stored collection *)

Lemma NoDup_map_filter {A B : Type} (f : A -> B) (p : A -> bool) l :
  NoDup (map f l) -> NoDup (map f (filter p l)).
Proof.
  induction l as [|x l IH]; simpl; [auto|].
  intros D. inversion D as [|? ? N D']; subst.
  destruct (p x); simpl; [|apply IH; exact D'].
  constructor; [|apply IH; exact D'].
  intros I. apply N. apply in_map_iff in I. destruct I as [y [E I]].
  apply filter_In in I. apply in_map_iff. exists y. tauto.
Qed.

(** X10: Create and Delete keep the (name, category) pairs of the stored records
    pairwise distinct, whatever their answer and whatever write is refused. *)
Theorem create_delete_keep_unique_keys flt tid ts payload template_id d :
  unique_keys d ->
  unique_keys (snd (create_template flt tid ts payload d))
  /\ unique_keys (snd (delete_template flt template_id d)).
Proof.
  intros U. split.
  - unfold create_template. destruct (duplicate payload (load_store d)) eqn:D;
      [exact U|].
    assert (N : ~ In (TemplateCreate.name payload, TemplateCreate.category payload)
                  (map key_of (load_store d))).
    { intros I. apply duplicate_keys in I. congruence. }
    destruct flt; simpl; try exact U.
    unfold unique_keys.
    cbn [os_replace dump_tmp open_tmp load_store store_file tmp_file].
    rewrite map_app. simpl. apply NoDup_app; [exact U | repeat constructor; intros [] |].
    intros a Ia [<-|[]]. exact (N Ia).
  - unfold delete_template. destruct (Nat.eqb _ _); [exact U|].
    destruct flt; simpl; try exact U.
    unfold unique_keys.
    cbn [os_replace dump_tmp open_tmp load_store store_file tmp_file].
    apply NoDup_map_filter. exact U.
Qed.

Lemma create_delete_keep_unique_keys_witness :
  unique_keys (snd (create_template NoFault uuid_b time_2 sales_v2_payload sales_disk))
  /\ unique_keys (snd (delete_template NoFault uuid_a sales_disk)).
Proof.
  apply (create_delete_keep_unique_keys NoFault uuid_b time_2 sales_v2_payload
           uuid_a sales_disk).
  unfold unique_keys. simpl. repeat constructor. intros [].
Defined.

Lemma leb_refl s : String.leb s s = true.
Proof. destruct (String.leb_total s s); assumption. Qed.

Lemma Forall_filter {A : Type} (P : A -> Prop) (p : A -> bool) l :
  Forall P l -> Forall P (filter p l).
Proof.
  intros F. rewrite Forall_forall in *. intros x I.
  apply filter_In in I. apply F. tauto.
Qed.

Lemma Forall_assign_first (P : Template -> Prop) items template_id new :
  Forall P items -> P new -> Forall P (assign_first items template_id new).
Proof.
  intros F N. induction items as [|x items IH]; simpl; [constructor|].
  inversion F; subst. destruct (Template.id x =? template_id); constructor; auto.
Qed.

Lemma serve_keeps (P : Template -> Prop) c d :
  Forall P (load_store d) ->
  (forall flt tid ts payload,
     c = Create flt tid ts payload -> P (new_record tid ts payload)) ->
  (forall flt ts template_id payload it,
     c = Update flt ts template_id payload ->
     find_by_id (load_store d) template_id = Some it ->
     P (overwrite ts payload it)) ->
  Forall P (load_store (serve c d)).
Proof.
  intros F Hc Hu.
  destruct c as [f tid ts payload | f ts template_id payload | f template_id]; simpl.
  - unfold create_template. destruct (duplicate _ _); [exact F|].
    destruct f; simpl; try exact F.
    cbn [load_store store_file]. apply Forall_app. split; [exact F|].
    repeat constructor. eapply Hc. reflexivity.
  - unfold update_template. destruct (find_by_id _ _) as [it|] eqn:E; [|exact F].
    destruct f; simpl; try exact F.
    cbn [load_store store_file]. apply Forall_assign_first; [exact F|].
    eapply Hu; [reflexivity | exact E].
  - unfold delete_template. destruct (Nat.eqb _ _); [exact F|].
    destruct f; simpl; try exact F.
    cbn [load_store store_file]. apply Forall_filter. exact F.
Qed.

(** X11: Along any sequence of calls in which the clock of an Update never reads
    earlier than the stamp of the record it updates, every stored record has
    created_at not later than updated_at, if that held at the start. *)
Theorem stamps_stay_ordered cs : forall d,
  stamps_ordered d -> clock_never_back cs d -> stamps_ordered (serve_all cs d).
Proof.
  induction cs as [|c cs IH]; simpl; intros d S C; [exact S|].
  destruct C as [C1 C2]. apply IH; [|exact C2].
  unfold stamps_ordered in *. apply serve_keeps; [exact S | |].
  - intros. simpl. apply leb_refl.
  - intros flt ts template_id payload it -> F. simpl.
    rewrite Forall_forall in S.
    apply (leb_trans _ (Template.updated_at it)).
    + apply S. apply (find_by_id_some _ _ _ F).
    + apply C1. exact F.
Qed.

Lemma stamps_stay_ordered_witness :
  stamps_ordered (serve_all example_calls empty_disk).
Proof.
  apply (stamps_stay_ordered example_calls empty_disk).
  - constructor.
  - simpl. split; [exact I|]. split; [|exact I].
    intros it H. inversion H. reflexivity.
Defined.

(** X12: Along any sequence of calls whose payloads passed the [min_length=1]
    validation of [TemplateCreate], every stored record has a non-empty name
    and a non-empty category, if that held at the start. *)
Theorem names_stay_non_empty cs : forall d,
  named d -> forallb validated cs = true -> named (serve_all cs d).
Proof.
  assert (V : forall payload, valid_payload payload = true ->
                TemplateCreate.name payload <> "" /\ TemplateCreate.category payload <> "").
  { intros payload H. unfold valid_payload in H. apply andb_true_iff in H.
    destruct H as [H1 H2]. apply negb_true_iff in H1, H2.
    apply String.eqb_neq in H1, H2. auto. }
  induction cs as [|c cs IH]; simpl; intros d N H; [exact N|].
  apply andb_true_iff in H. destruct H as [H1 H2]. apply IH; [|exact H2].
  unfold named in *. apply serve_keeps; [exact N | |].
  - intros flt tid ts payload ->. simpl. apply V. exact H1.
  - intros flt ts template_id payload it -> _. simpl. apply V. exact H1.
Qed.

Lemma names_stay_non_empty_witness :
  named (serve_all example_calls empty_disk).
Proof.
  apply (names_stay_non_empty example_calls empty_disk).
  - constructor.
  - reflexivity.
Defined.

(** ** More on List *)

Lemma insert_desc_head x y l :
  String.leb (Template.updated_at y) (Template.updated_at x) = true ->
  insert_desc x (y :: l) = x :: y :: l.
Proof. intros H. simpl. rewrite H. reflexivity. Qed.

Lemma filter_insert_desc (p : Template -> bool) x l :
  StronglySorted not_later l ->
  filter p (insert_desc x l)
  = if p x then insert_desc x (filter p l) else filter p l.
Proof.
  induction l as [|y l IH]; intros S.
  - simpl. destruct (p x); reflexivity.
  - inversion S as [|? ? S' F]; subst. simpl insert_desc.
    destruct (String.leb (Template.updated_at y) (Template.updated_at x)) eqn:E.
    + cbn [filter]. destruct (p x); [|reflexivity].
      destruct (p y).
      * rewrite insert_desc_head; [reflexivity | exact E].
      * destruct (filter p l) as [|z l'] eqn:Fl; [reflexivity|].
        rewrite insert_desc_head; [reflexivity|].
        assert (Iz : In z l).
        { assert (X : In z (filter p l)) by (rewrite Fl; left; reflexivity).
          apply filter_In in X. tauto. }
        rewrite Forall_forall in F.
        apply (leb_trans _ (Template.updated_at y)); [apply (F z Iz) | exact E].
    + cbn [filter]. rewrite (IH S').
      destruct (p x), (p y); try reflexivity.
      simpl. rewrite E. reflexivity.
Qed.

Lemma filter_sort (p : Template -> bool) l :
  filter p (sort_updated_at_reverse l) = sort_updated_at_reverse (filter p l).
Proof.
  induction l as [|x l IH]; [reflexivity|].
  simpl sort_updated_at_reverse. rewrite filter_insert_desc by apply sort_sorted.
  rewrite IH. simpl. destruct (p x); reflexivity.
Qed.

Lemma list_templates_selected lower category q d :
  list_templates lower category q d
  = sort_updated_at_reverse
      (filter (selected lower category q) (MOCK_TEMPLATES ++ load_store d)).
Proof.
  unfold list_templates, selected.
  destruct (truthy category), (truthy q); cbv beta iota zeta.
  - rewrite filter_twice. reflexivity.
  - f_equal. apply filter_ext. intros t. rewrite andb_true_r. reflexivity.
  - reflexivity.
  - f_equal. induction (MOCK_TEMPLATES ++ load_store d)%list as [|x l IH];
      simpl; [reflexivity | f_equal; exact IH].
Qed.

(** X13: Filtering and sorting commute: List with filters returns the unfiltered
    List with the records that do not pass taken out, the others in the
    order they have there. *)
Theorem list_templates_filters_the_full_list lower category q d :
  list_templates lower category q d
  = filter (selected lower category q) (list_templates lower None None d).
Proof.
  rewrite (list_templates_selected lower category q d).
  rewrite (list_templates_selected lower None None d).
  rewrite filter_sort. f_equal.
  rewrite filter_twice. apply filter_ext. intros t. reflexivity.
Qed.

Lemma ltb_not_leb s1 s2 : String.ltb s1 s2 = true -> String.leb s2 s1 = false.
Proof.
  unfold String.ltb, String.leb. rewrite (String.compare_antisym s2 s1).
  destruct (String.compare s1 s2); simpl; congruence.
Qed.

Lemma sort_latest_last l x :
  Forall (fun y => String.ltb (Template.updated_at y) (Template.updated_at x) = true) l ->
  sort_updated_at_reverse (l ++ [x]) = x :: sort_updated_at_reverse l.
Proof.
  induction l as [|y l IH]; intros F; [reflexivity|].
  inversion F as [|? ? Hy F']; subst. simpl. rewrite (IH F'). simpl.
  rewrite (ltb_not_leb _ _ Hy). reflexivity.
Qed.

(** X14: The record of a Create that returned comes first in the unfiltered List,
    before the records listed until then in their order, when the time drawn
    is later than the stamp of every seed and of every stored record. *)
Theorem list_after_create lower tid ts payload d x d' :
  Forall (fun y => String.ltb (Template.updated_at y) ts = true)
    (MOCK_TEMPLATES ++ load_store d) ->
  create_template NoFault tid ts payload d = (Return x, d') ->
  list_templates lower None None d' = x :: list_templates lower None None d.
Proof.
  intros F H. apply create_template_returns in H. destruct H as [_ [X ->]].
  unfold list_templates. cbv beta iota zeta. simpl truthy. cbv iota.
  cbn [load_store store_file]. rewrite app_assoc.
  apply sort_latest_last. subst x. exact F.
Qed.

Lemma list_after_create_witness :
  list_templates lower_ascii None None sales_disk
  = sales_record :: list_templates lower_ascii None None empty_disk.
Proof.
  apply (list_after_create lower_ascii uuid_a time_1 sales_payload empty_disk
           sales_record sales_disk).
  - simpl. repeat constructor.
  - reflexivity.
Defined.

(** ** Substring search *)

Lemma prefix_spec needle : forall hay,
  prefix needle hay = true <-> exists post, hay = needle ++ post.
Proof.
  induction needle as [|a needle IH]; intros [|b hay]; simpl.
  - split; [intros _; exists ""; reflexivity | reflexivity].
  - split; [intros _; exists (String b hay); reflexivity | reflexivity].
  - split; [discriminate | intros [post H]; discriminate H].
  - destruct (Ascii.ascii_dec a b) as [E|E].
    + rewrite IH. split; intros [post H]; exists post; [subst; reflexivity|].
      inversion H; reflexivity.
    + split; [discriminate|]. intros [post H]. inversion H. subst.
      exfalso. apply E. reflexivity.
Qed.

Lemma str_in_spec needle : forall hay,
  str_in needle hay = true <-> exists pre post, hay = pre ++ needle ++ post.
Proof.
  induction hay as [|b hay IH]; cbn [str_in].
  - rewrite orb_false_r, prefix_spec. split.
    + intros [post H]. exists "", post. exact H.
    + intros [pre [post H]]. destruct pre; [exists post; exact H | discriminate H].
  - rewrite orb_true_iff, prefix_spec, IH. split.
    + intros [[post H]|[pre [post H]]].
      * exists "", post. exact H.
      * exists (String b pre), post. simpl. rewrite H. reflexivity.
    + intros [pre [post H]]. destruct pre as [|c pre].
      * left. exists post. exact H.
      * right. simpl in H. inversion H. exists pre, post. reflexivity.
Qed.

(** X15: List with a non-empty query and no category returns exactly the seed
    and stored records whose name, in lower case, holds the query in lower
    case as a contiguous part. *)
Theorem list_templates_query lower q d t :
  q <> "" ->
  In t (list_templates lower None (Some q) d)
  <-> (In t MOCK_TEMPLATES \/ In t (load_store d))
      /\ exists pre post, lower (Template.name t) = pre ++ lower q ++ post.
Proof.
  intros Q. rewrite (list_templates_selected lower None (Some q) d).
  assert (T : truthy (Some q) = true)
    by (simpl; apply negb_true_iff; apply String.eqb_neq; exact Q).
  rewrite <- str_in_spec. split.
  - intros I. apply (Permutation_in _ (Permutation_sym (sort_perm _))) in I.
    apply filter_In in I. destruct I as [I S]. unfold selected in S.
    rewrite T in S. simpl in S. split; [apply in_app_or; exact I | exact S].
  - intros [I S]. apply (Permutation_in _ (sort_perm _)).
    apply filter_In. split; [apply in_or_app; exact I|].
    unfold selected. rewrite T. simpl. exact S.
Qed.

Lemma list_templates_query_witness :
  In sales_record (list_templates lower_ascii None (Some "REPORT t") sales_disk).
Proof.
  apply (proj2 (list_templates_query lower_ascii "REPORT t" sales_disk sales_record
                  ltac:(discriminate))).
  split; [right; left; reflexivity|].
  exists "sales ", "emplate". reflexivity.
Defined.

(** X16: The query is compared in lower case only: two non-empty queries with the
    same lower case give the same List and the same dropdown data. *)
Theorem queries_are_case_insensitive lower category q1 q2 d source field :
  q1 <> "" -> q2 <> "" -> lower q1 = lower q2 ->
  list_templates lower category (Some q1) d
  = list_templates lower category (Some q2) d
  /\ match search_dropdown_data lower source (Some q1) field,
           search_dropdown_data lower source (Some q2) field with
     | Return r1, Return r2 => data r1 = data r2
     | HTTPException c1 m1, HTTPException c2 m2 => c1 = c2 /\ m1 = m2
     | _, _ => False
     end.
Proof.
  intros Q1 Q2 E.
  assert (T1 : truthy (Some q1) = true)
    by (simpl; apply negb_true_iff; apply String.eqb_neq; exact Q1).
  assert (T2 : truthy (Some q2) = true)
    by (simpl; apply negb_true_iff; apply String.eqb_neq; exact Q2).
  split.
  - unfold list_templates. rewrite T1, T2. simpl text. rewrite E. reflexivity.
  - unfold search_dropdown_data. destruct (dict_get MOCK_DATA source); [|auto].
    rewrite T1, T2. simpl text. rewrite E. reflexivity.
Qed.

Lemma queries_are_case_insensitive_witness :
  list_templates lower_ascii None (Some "Report") sales_disk
  = list_templates lower_ascii None (Some "rEPORT") sales_disk.
Proof.
  apply (queries_are_case_insensitive lower_ascii None "Report" "rEPORT" sales_disk
           "products" None); try discriminate. reflexivity.
Defined.

(** ** Dropdown data *)

Lemma dict_get_none {V : Type} (d : list (string * V)) key :
  dict_get d key = None <-> ~ In key (map fst d).
Proof.
  induction d as [|[k v] d IH]; simpl; [tauto|].
  destruct (String.eqb_spec k key) as [E|E].
  - split; [discriminate | intros N; exfalso; apply N; left; exact E].
  - rewrite IH. tauto.
Qed.

Lemma dict_get_in {V : Type} (d : list (string * V)) key v :
  NoDup (map fst d) -> In (key, v) d -> dict_get d key = Some v.
Proof.
  induction d as [|[k w] d IH]; simpl; [tauto|].
  intros D [E|I].
  - inversion E; subst. rewrite String.eqb_refl. reflexivity.
  - inversion D as [|? ? N D']; subst.
    destruct (String.eqb_spec k key) as [E|E].
    + exfalso. apply N. rewrite E. apply (in_map fst _ _ I).
    + apply IH; assumption.
Qed.

Lemma MOCK_DATA_keys : NoDup (map fst MOCK_DATA).
Proof.
  simpl. repeat constructor; simpl; intros H;
    repeat (destruct H as [H|H]; [discriminate H|]); exact H.
Qed.

(** X17: The sources listed are the sources served: a name is listed exactly when
    fetching it returns data, any other name gets 404; and each entry counts
    the records that fetching its id returns. *)
Theorem listed_sources_are_served title source :
  (In source (map entry_id (list_dropdown_sources title))
   <-> exists all, get_dropdown_data source = Return (source, all))
  /\ (~ In source (map entry_id (list_dropdown_sources title))
      <-> get_dropdown_data source
          = HTTPException 404 ("Source '" ++ source ++ "' not found"))
  /\ (forall e,
        In e (list_dropdown_sources title) ->
        exists all,
          get_dropdown_data (entry_id e) = Return (entry_id e, all)
          /\ count e = length all
          /\ entry_name e = title (entry_id e)).
Proof.
  assert (M : map entry_id (list_dropdown_sources title) = map fst MOCK_DATA).
  { unfold list_dropdown_sources. rewrite map_map. reflexivity. }
  rewrite M. unfold get_dropdown_data. split; [|split].
  - destruct (dict_get MOCK_DATA source) as [all|] eqn:G.
    + split; [intros _; exists all; reflexivity|]. intros _.
      destruct (in_dec string_dec source (map fst MOCK_DATA)) as [I|N]; [exact I|].
      apply dict_get_none in N. congruence.
    + apply dict_get_none in G. split; [contradiction|].
      intros [all H]. discriminate H.
  - rewrite <- dict_get_none.
    destruct (dict_get MOCK_DATA source); split; try discriminate; reflexivity.
  - intros e I. unfold list_dropdown_sources in I. apply in_map_iff in I.
    destruct I as [[k all] [<- I]]. cbn [entry_id count entry_name fst snd].
    rewrite (dict_get_in MOCK_DATA k all MOCK_DATA_keys I).
    exists all. auto.
Qed.

Lemma listed_sources_are_served_witness :
  exists all, get_dropdown_data "customers" = Return ("customers", all).
Proof.
  apply (proj1 (proj1 (listed_sources_are_served (fun s => s) "customers"))).
  simpl. auto.
Defined.

(** X18: Search answers for the sources that fetching answers for, with 404 and
    the same message otherwise; what it returns echoes the source and the
    query and holds records of the source only, in the order of the source. *)
Theorem search_returns_part_of_the_source lower name q field :
  match get_dropdown_data name, search_dropdown_data lower name q field with
  | Return (s, all), Return r =>
      s = name /\ source r = name /\ query r = q
      /\ exists keep, data r = filter keep all
  | HTTPException c m, HTTPException c' m' => c = c' /\ m = m' /\ c = 404%Z
  | _, _ => False
  end.
Proof.
  unfold get_dropdown_data, search_dropdown_data.
  destruct (dict_get MOCK_DATA name) as [all|]; [|auto].
  cbn [source query data]. repeat split.
  destruct (truthy q); [destruct (truthy field)|]; try (eexists; reflexivity).
  exists (fun _ => true). induction all as [|x all IH]; simpl; congruence.
Qed.

(** X19: A search in a named field never returns a record that lacks the field,
    as long as lower case maps the empty string to itself and the query to a
    non-empty string. *)
Theorem search_skips_records_without_the_field lower source q field r item :
  q <> "" -> field <> "" -> lower "" = "" -> lower q <> "" ->
  search_dropdown_data lower source (Some q) (Some field) = Return r ->
  In item (data r) ->
  exists v, dict_get item field = Some v.
Proof.
  intros Q F L0 Lq H I. unfold search_dropdown_data in H.
  destruct (dict_get MOCK_DATA source) as [all|]; [|discriminate H].
  assert (T1 : truthy (Some q) = true)
    by (simpl; apply negb_true_iff; apply String.eqb_neq; exact Q).
  assert (T2 : truthy (Some field) = true)
    by (simpl; apply negb_true_iff; apply String.eqb_neq; exact F).
  rewrite T1, T2 in H. inversion H; subst r; clear H. simpl in I.
  apply filter_In in I. destruct I as [_ S].
  unfold dict_get_default in S.
  destruct (dict_get item field) as [v|]; [exists v; reflexivity|].
  exfalso. simpl in S. rewrite L0 in S.
  apply str_in_spec in S. destruct S as [pre [post S]].
  destruct pre; [|discriminate S]. simpl in S.
  destruct (lower q); [apply Lq; reflexivity | discriminate S].
Qed.

Lemma search_skips_records_without_the_field_witness :
  exists v, dict_get (product "P004" "Desk Chair" 350 "Furniture") "category"
            = Some v.
Proof.
  apply (search_skips_records_without_the_field lower_ascii "products" "FURN"
           "category"
           (SearchResponse "products" (Some "FURN")
              [product "P004" "Desk Chair" 350 "Furniture";
               product "P008" "Desk" 500 "Furniture"])
           (product "P004" "Desk Chair" 350 "Furniture"));
    try discriminate; try reflexivity.
  simpl. left. reflexivity.
Defined.

(** ** Any two concurrent Creates *)

Section AnyTwoCreatesFacts.

Variable calls : thread -> create_call.
Variable d0 : disk.

Lemma pc_sound_outside t d d' p :
  in_block p = false ->
  (forall payload, duplicate payload (load_store d) = true ->
                   duplicate payload (load_store d') = true) ->
  pc_sound calls t d p -> pc_sound calls t d' p.
Proof.
  destruct p as [| |items|items record|r|r]; simpl; try discriminate; auto.
  intros _ M. destruct r; simpl; intuition.
Qed.

Lemma ginv_start : ginv calls d0 (start d0).
Proof.
  constructor; simpl; auto. left. rewrite app_nil_r. reflexivity.
Qed.

Lemma save_store_cases flt items d :
  (flt = NoFault
   /\ save_store flt items d = (Return tt, os_replace (dump_tmp items (open_tmp d))))
  \/ (flt <> NoFault
      /\ exists d', save_store flt items d = (OSError, d')
                    /\ load_store d' = load_store d).
Proof.
  destruct flt; simpl; [left; auto | right | right | right];
    (split; [discriminate|]); eexists; split; reflexivity.
Qed.

Lemma ginv_step s t s' :
  ginv calls d0 s -> step calls t s = Some s' -> ginv calls d0 s'.
Proof.
  intros [Il Ie If P1 P2] H.
  destruct s as [d l p1 p2]. simpl in *. unfold step in H.
  destruct t; simpl in H.
  - destruct p1 as [| |items|items record|r|r].
    + destruct l; [discriminate|]. inversion H; subst; clear H.
      constructor; simpl in *; auto.
    + inversion H; subst; clear H. constructor; simpl in *; auto.
    + simpl in P1. subst items.
      destruct (duplicate (c_payload (calls T1)) (load_store d)) eqn:Tk;
        inversion H; subst; clear H; constructor; simpl in *; auto.
    + simpl in P1. destruct P1 as [Ei [Er Tk]]. subst items. simpl in Ie.
      unfold appended in If. simpl in If.
      destruct (save_store_cases (c_flt (calls T1)) (load_store d ++ [record]) d)
        as [[Fl Sv]|[Fl [d' [Sv Ld]]]];
        rewrite Sv in H; inversion H; subst s'; clear H.
      * constructor; simpl; auto.
        -- right. unfold appended at 2. simpl.
           cbn [os_replace dump_tmp open_tmp load_store store_file tmp_file].
           destruct If as [If|If]; rewrite If; rewrite ?app_nil_r, <- ?app_assoc;
             subst record; reflexivity.
        -- apply (pc_sound_outside T2 d); auto.
           intros payload D.
           cbn [os_replace dump_tmp open_tmp load_store store_file tmp_file].
           rewrite duplicate_app, D. reflexivity.
      * constructor; simpl; auto.
        -- unfold appended. simpl. rewrite Ld. exact If.
        -- apply (pc_sound_outside T2 d); auto. rewrite Ld. auto.
    + inversion H; subst; clear H. constructor; simpl in *; auto.
    + discriminate.
  - destruct p2 as [| |items|items record|r|r].
    + destruct l; [discriminate|]. inversion H; subst; clear H.
      rewrite orb_false_r in Il.
      constructor; simpl in *; rewrite ?orb_true_r, ?andb_true_r; auto.
    + inversion H; subst; clear H. constructor; simpl in *; auto.
    + simpl in P2. subst items.
      destruct (duplicate (c_payload (calls T2)) (load_store d)) eqn:Tk;
        inversion H; subst; clear H; constructor; simpl in *; auto.
    + simpl in P2. destruct P2 as [Ei [Er Tk]]. subst items.
      rewrite andb_true_r in Ie.
      unfold appended in If. simpl in If.
      destruct (save_store_cases (c_flt (calls T2)) (load_store d ++ [record]) d)
        as [[Fl Sv]|[Fl [d' [Sv Ld]]]];
        rewrite Sv in H; inversion H; subst s'; clear H.
      * constructor; simpl; auto.
        -- rewrite andb_true_r. exact Ie.
        -- left. unfold appended at 2. simpl.
           cbn [os_replace dump_tmp open_tmp load_store store_file tmp_file].
           destruct If as [If|If]; rewrite If; rewrite ?app_nil_r, <- ?app_assoc;
             subst record; reflexivity.
        -- apply (pc_sound_outside T1 d); auto.
           intros payload D.
           cbn [os_replace dump_tmp open_tmp load_store store_file tmp_file].
           rewrite duplicate_app, D. reflexivity.
      * constructor; simpl; auto.
        -- rewrite andb_true_r. exact Ie.
        -- unfold appended. simpl. rewrite Ld. exact If.
        -- apply (pc_sound_outside T1 d); auto. rewrite Ld. auto.
    + inversion H; subst; clear H. constructor; simpl in *; auto.
      apply andb_false_r.
    + discriminate.
Qed.

Lemma ginv_reaches s : reaches calls (start d0) s -> ginv calls d0 s.
Proof.
  induction 1 as [|s t s' R IH H]; [apply ginv_start|].
  apply (ginv_step s t s' IH H).
Qed.

End AnyTwoCreatesFacts.

Lemma lock_progress calls s :
  lock_held s = in_block (at1 s) || in_block (at2 s) ->
  (0 < steps_left (at1 s) + steps_left (at2 s))%nat ->
  exists t s', step calls t s = Some s'.
Proof.
  intros Lk L.
  destruct (in_block (at1 s)) eqn:B1.
  { destruct (step_in_block calls T1 s B1) as [s' H]. exists T1, s'. exact H. }
  destruct (in_block (at2 s)) eqn:B2.
  { destruct (step_in_block calls T2 s B2) as [s' H]. exists T2, s'. exact H. }
  simpl in Lk.
  destruct (at1 s) as [| |?|? ?|?|?] eqn:A1; simpl in B1; try discriminate.
  - exists T1. unfold step. simpl. rewrite A1, Lk. eexists; reflexivity.
  - destruct (at2 s) as [| |?|? ?|?|?] eqn:A2; simpl in B2; try discriminate.
    + exists T2. unfold step. simpl. rewrite A2, Lk. eexists; reflexivity.
    + simpl in L. lia.
Qed.

Lemma ginv_completes calls d0 n : forall s,
  ginv calls d0 s ->
  (steps_left (at1 s) + steps_left (at2 s) <= n)%nat ->
  exists s' r1 r2, reaches calls s s' /\ both_finished s' r1 r2.
Proof.
  induction n as [|n IH]; intros s I L.
  - exists s. destruct (at1 s) eqn:A1; simpl in L; try lia.
    destruct (at2 s) eqn:A2; simpl in L; try lia.
    eexists _, _. split; [constructor | split; eassumption].
  - destruct (Nat.eq_dec (steps_left (at1 s) + steps_left (at2 s)) 0) as [Z|Z].
    + apply IH; [exact I | lia].
    + destruct (lock_progress calls s (g_lock _ _ _ I)) as [t [s1 H]]; [lia|].
      pose proof (step_decreases calls t s s1 H) as D.
      destruct (IH s1 (ginv_step calls d0 s t s1 I H)) as [s' [r1 [r2 [R B]]]]; [lia|].
      exists s', r1, r2. split; [|exact B].
      eapply reaches_trans; [|exact R].
      eapply reaches_step; [constructor | exact H].
Qed.

(** X20: Two concurrent Creates, whatever their payloads, the interleaving and
    the writes refused: both calls can always run to their end, and then the
    store file holds the records it held before, in their order, followed by
    the record of each call that returned and by nothing else; a call that
    returned has returned the record it built. *)
Theorem concurrent_creates_lose_nothing calls d s :
  reaches calls (start d) s ->
  (exists s' r1 r2, reaches calls s s' /\ both_finished s' r1 r2)
  /\ forall r1 r2,
       both_finished s r1 r2 ->
       (exists log,
          load_store (files s) = (load_store d ++ log)%list
          /\ Permutation log
               (appended (Finished r1) (record_of calls T1)
                  ++ appended (Finished r2) (record_of calls T2)))
       /\ (forall x, r1 = Return x -> x = record_of calls T1)
       /\ (forall x, r2 = Return x -> x = record_of calls T2).
Proof.
  intros R. pose proof (ginv_reaches calls d s R) as I.
  split; [exact (ginv_completes calls d _ s I (le_n _))|].
  intros r1 r2 [A1 A2]. destruct I as [_ _ If P1 P2].
  rewrite A1, A2 in *. simpl in P1, P2. split; [|split].
  - destruct If as [If|If]; eexists; (split; [exact If|]).
    + apply Permutation_refl.
    + apply Permutation_app_comm.
  - intros x ->. exact P1.
  - intros x ->. exact P2.
Qed.

Lemma concurrent_creates_lose_nothing_witness :
  exists log,
    load_store (files (run example_pair example_schedule (start empty_disk)))
    = (load_store empty_disk ++ log)%list
    /\ Permutation log
         (appended (Finished (Return (record_of example_pair T1)))
            (record_of example_pair T1)
          ++ appended (Finished (Return (record_of example_pair T2)))
               (record_of example_pair T2)).
Proof.
  apply (proj2 (concurrent_creates_lose_nothing example_pair empty_disk
                  (run example_pair example_schedule (start empty_disk))
                  (run_reaches example_pair example_schedule (start empty_disk)))
           (Return (record_of example_pair T1))
           (Return (record_of example_pair T2))).
  split; reflexivity.
Defined.

Lemma duplicate_other_key p1 p2 tid ts :
  different_key p1 p2 -> duplicate p1 [new_record tid ts p2] = false.
Proof.
  unfold duplicate. simpl. rewrite orb_false_r. intros [N|C].
  - apply andb_false_iff. left. apply String.eqb_neq. congruence.
  - apply andb_false_iff. right. apply String.eqb_neq. congruence.
Qed.

(** X21: Two concurrent Creates with different (name, category), neither of them
    stored yet, and no write refused: in every interleaving both calls
    return their records and the store file ends with the two records, in
    one order or the other. *)
Theorem concurrent_creates_with_different_keys calls d s r1 r2 :
  different_key (c_payload (calls T1)) (c_payload (calls T2)) ->
  duplicate (c_payload (calls T1)) (load_store d) = false ->
  duplicate (c_payload (calls T2)) (load_store d) = false ->
  c_flt (calls T1) = NoFault -> c_flt (calls T2) = NoFault ->
  reaches calls (start d) s ->
  both_finished s r1 r2 ->
  r1 = Return (record_of calls T1)
  /\ r2 = Return (record_of calls T2)
  /\ (load_store (files s)
      = (load_store d ++ [record_of calls T1; record_of calls T2])%list
      \/ load_store (files s)
         = (load_store d ++ [record_of calls T2; record_of calls T1])%list).
Proof.
  intros K D1 D2 F1 F2 R [A1 A2].
  pose proof (ginv_reaches calls d s R) as I. destruct I as [_ _ If P1 P2].
  rewrite A1, A2 in *. simpl in P1, P2. unfold appended in If. simpl in If.
  assert (K' : different_key (c_payload (calls T2)) (c_payload (calls T1)))
    by (destruct K as [K|K]; [left | right]; congruence).
  assert (N1 : forall l, l = [] \/ l = [record_of calls T2] ->
                 duplicate (c_payload (calls T1)) (load_store d ++ l) = false).
  { intros l [ -> | -> ]; rewrite duplicate_app, D1; [reflexivity|].
    apply duplicate_other_key. exact K. }
  assert (N2 : forall l, l = [] \/ l = [record_of calls T1] ->
                 duplicate (c_payload (calls T2)) (load_store d ++ l) = false).
  { intros l [ -> | -> ]; rewrite duplicate_app, D2; [reflexivity|].
    apply duplicate_other_key. exact K'. }
  assert (E1 : r1 = Return (record_of calls T1)).
  { destruct r1 as [x|c m|]; simpl in P1.
    - rewrite P1. reflexivity.
    - exfalso. destruct P1 as [_ P1].
      assert (X : duplicate (c_payload (calls T1)) (load_store (files s)) = false).
      { destruct If as [If|If]; rewrite If; simpl; rewrite ?app_nil_r;
          apply N1; destruct r2; auto. }
      congruence.
    - contradiction. }
  assert (E2 : r2 = Return (record_of calls T2)).
  { destruct r2 as [x|c m|]; simpl in P2.
    - rewrite P2. reflexivity.
    - exfalso. destruct P2 as [_ P2].
      assert (X : duplicate (c_payload (calls T2)) (load_store (files s)) = false).
      { destruct If as [If|If]; rewrite If; simpl; rewrite ?app_nil_r;
          apply N2; destruct r1; auto. }
      congruence.
    - contradiction. }
  subst r1 r2. simpl in If. auto.
Qed.

Lemma concurrent_creates_with_different_keys_witness :
  load_store (files (run example_pair example_schedule (start empty_disk)))
  = (load_store empty_disk ++ [record_of example_pair T1; record_of example_pair T2])%list
  \/ load_store (files (run example_pair example_schedule (start empty_disk)))
     = (load_store empty_disk ++ [record_of example_pair T2; record_of example_pair T1])%list.
Proof.
  apply (concurrent_creates_with_different_keys example_pair empty_disk
           (run example_pair example_schedule (start empty_disk))
           (Return (record_of example_pair T1))
           (Return (record_of example_pair T2))).
  - left. discriminate.
  - reflexivity.
  - reflexivity.
  - reflexivity.
  - reflexivity.
  - apply run_reaches.
  - split; reflexivity.
Defined.

(** ** What a call does not touch *)

Lemma find_by_id_app_other items x template_id :
  Template.id x <> template_id ->
  find_by_id (items ++ [x]) template_id = find_by_id items template_id.
Proof.
  intros N. induction items as [|y items IH]; simpl.
  - destruct (String.eqb_spec (Template.id x) template_id); [contradiction|reflexivity].
  - destruct (Template.id y =? template_id); [reflexivity | exact IH].
Qed.

Lemma find_by_id_assign_other items template_id new other :
  Template.id new = template_id -> other <> template_id ->
  find_by_id (assign_first items template_id new) other = find_by_id items other.
Proof.
  intros E N. induction items as [|y items IH]; simpl; [reflexivity|].
  destruct (String.eqb_spec (Template.id y) template_id) as [F|F]; simpl.
  - destruct (String.eqb_spec (Template.id new) other) as [G|G]; [congruence|].
    destruct (String.eqb_spec (Template.id y) other) as [H|H]; [congruence|].
    reflexivity.
  - destruct (Template.id y =? other); [reflexivity | exact IH].
Qed.

Lemma find_by_id_filter_other items template_id other :
  other <> template_id ->
  find_by_id (filter (fun it => negb (Template.id it =? template_id)) items) other
  = find_by_id items other.
Proof.
  intros N. induction items as [|y items IH]; simpl; [reflexivity|].
  destruct (String.eqb_spec (Template.id y) template_id) as [F|F]; simpl.
  - destruct (String.eqb_spec (Template.id y) other) as [H|H]; [congruence | exact IH].
  - destruct (Template.id y =? other); [reflexivity | exact IH].
Qed.

(** X22: A mutating call does not change what Get answers for any id other than
    the one it creates, updates or deletes, whatever its own answer. *)
Theorem calls_leave_other_ids c d other :
  other <> touched c ->
  get_template other (serve c d) = get_template other d.
Proof.
  intros N.
  assert (G : forall d', find_by_id (load_store d') other
                         = find_by_id (load_store d) other ->
                get_template other d' = get_template other d).
  { intros d' E. unfold get_template. rewrite E. reflexivity. }
  apply G. clear G.
  destruct c as [f tid ts payload | f ts template_id payload | f template_id];
    simpl in N |- *.
  - unfold create_template. destruct (duplicate _ _); [reflexivity|].
    destruct f; simpl; try reflexivity.
    cbn [load_store store_file]. apply find_by_id_app_other. simpl. congruence.
  - unfold update_template.
    destruct (find_by_id (load_store d) template_id) as [it|] eqn:F; [|reflexivity].
    destruct f; simpl; try reflexivity.
    cbn [load_store store_file]. apply find_by_id_assign_other; [|exact N].
    simpl. apply (find_by_id_some _ _ _ F).
  - unfold delete_template. destruct (Nat.eqb _ _); [reflexivity|].
    destruct f; simpl; try reflexivity.
    cbn [load_store store_file]. apply find_by_id_filter_other. exact N.
Qed.

Lemma calls_leave_other_ids_witness :
  get_template uuid_a (serve (Delete NoFault uuid_b) two_disk)
  = get_template uuid_a two_disk.
Proof.
  apply (calls_leave_other_ids (Delete NoFault uuid_b) two_disk uuid_a).
  discriminate.
Defined.

(** X23: What is left under the sibling path, by a save that was cut short or by
    anything else, changes nothing: two disks with the same store file get
    the same answer from every call, List and Get, and the same store file
    afterwards. *)
Theorem sibling_file_is_ignored c d1 d2 :
  store_file d1 = store_file d2 ->
  answer c d1 = answer c d2
  /\ store_file (serve c d1) = store_file (serve c d2)
  /\ (forall lower category q,
        list_templates lower category q d1 = list_templates lower category q d2)
  /\ (forall template_id, get_template template_id d1 = get_template template_id d2).
Proof.
  intros E. pose proof (load_store_store_file d2 d1 E) as L.
  split; [|split; [|split]].
  - destruct c as [f tid ts payload | f ts template_id payload | f template_id];
      unfold answer.
    + unfold create_template. rewrite L. destruct (duplicate _ _); [reflexivity|].
      destruct f; reflexivity.
    + unfold update_template. rewrite L. destruct (find_by_id _ _); [|reflexivity].
      destruct f; reflexivity.
    + unfold delete_template. rewrite L. destruct (Nat.eqb _ _); [reflexivity|].
      destruct f; reflexivity.
  - destruct c as [f tid ts payload | f ts template_id payload | f template_id];
      unfold serve.
    + unfold create_template. rewrite L. destruct (duplicate _ _); [exact E|].
      destruct f; simpl; auto.
    + unfold update_template. rewrite L. destruct (find_by_id _ _); [|exact E].
      destruct f; simpl; auto.
    + unfold delete_template. rewrite L. destruct (Nat.eqb _ _); [exact E|].
      destruct f; simpl; auto.
  - intros. unfold list_templates. rewrite L. reflexivity.
  - intros. unfold get_template. rewrite L. reflexivity.
Qed.

Lemma sibling_file_is_ignored_witness :
  answer (Create NoFault uuid_b time_2 sales_payload) sales_disk
  = answer (Create NoFault uuid_b time_2 sales_payload)
      {| store_file := store_file sales_disk; tmp_file := Some Garbage |}.
Proof.
  apply (sibling_file_is_ignored (Create NoFault uuid_b time_2 sales_payload)
           sales_disk {| store_file := store_file sales_disk; tmp_file := Some Garbage |}).
  reflexivity.
Defined.


(** ** Store files that are not UTF-8 *)

Lemma load_store_bytes_as_text b :
  load_store_bytes b
  = match as_text b with
    | Read d => Read (load_store d)
    | UnicodeDecodeError => UnicodeDecodeError
    end.
Proof.
  unfold load_store_bytes, as_text, load_store.
  destruct (store_bytes b) as [[|[| |data]]|]; reflexivity.
Qed.

(** C8: [load_store] returns the empty list for a missing store file, for
    text that is not JSON and for a JSON value that is no array, and List
    then returns the seed templates; but for a store file whose bytes are not
    UTF-8 it raises [UnicodeDecodeError], which its [except] clause does not
    name, and so do List, Create, Update and Delete, and Get of any id that
    is no seed id: such a file is not treated as an empty collection. *)
Theorem load_store_raises_on_bytes_that_are_not_utf8
    lower category q flt tid ts template_id payload tmp :
  load_store_bytes (ByteDisk None tmp) = Read []
  /\ load_store_bytes (ByteDisk (Some (Utf8 Garbage)) tmp) = Read []
  /\ load_store_bytes (ByteDisk (Some (Utf8 NonArray)) tmp) = Read []
  /\ list_templates_bytes lower None None (ByteDisk (Some (Utf8 Garbage)) tmp)
     = Read MOCK_TEMPLATES
  /\ load_store_bytes (ByteDisk (Some NotUtf8) tmp) = UnicodeDecodeError
  /\ list_templates_bytes lower category q (ByteDisk (Some NotUtf8) tmp)
     = UnicodeDecodeError
  /\ create_template_bytes flt tid ts payload (ByteDisk (Some NotUtf8) tmp)
     = UnicodeDecodeError
  /\ update_template_bytes flt ts template_id payload (ByteDisk (Some NotUtf8) tmp)
     = UnicodeDecodeError
  /\ delete_template_bytes flt template_id (ByteDisk (Some NotUtf8) tmp)
     = UnicodeDecodeError
  /\ get_template_bytes template_id (ByteDisk (Some NotUtf8) tmp)
     = (if seed_id template_id
        then get_template_bytes template_id (ByteDisk None tmp)
        else UnicodeDecodeError).
Proof.
  repeat split.
  unfold get_template_bytes.
  destruct (seed_id template_id) eqn:S.
  - destruct (seed_id_find_some template_id S) as [tpl [F _]]. rewrite F. reflexivity.
  - rewrite (seed_id_find template_id S). reflexivity.
Qed.
